(** * Marketing data pipeline: generator, loader and dashboard

    A shallow embedding of [src/extract_data.py], [src/load_bigquery.py] and
    [src/dashboard.py].  Python floats are IEEE binary64 numbers, modelled by
    Rocq's primitive floats; Python ints are [Z]; dictionaries of the external
    services (file system, warehouse) are [gmap]s.  Calls into numpy's random
    module, the BigQuery client and Streamlit are modelled by explicit state
    passing over the state those libraries keep. *)

From Stdlib Require Import ZArith Floats String Ascii List Bool Lia.
From Stdlib Require Import Sorted Permutation.
From stdpp Require Import gmap strings.
Import ListNotations.

Set Warnings "-inexact-float".
Local Open Scope Z_scope.

(* ===================================================================== *)
(** ** Python numbers *)
(* ===================================================================== *)

Module Py.

(** A Python number as the generator holds it: the literal [0] and the
    result of [max(0, x)] are ints, numpy's normal draws are floats. *)
Inductive pynum : Type :=
| PyInt (z : Z)
| PyFloat (f : float).

(** [float(z)]: the binary64 number nearest to the integer [z]
    (round half to even). *)
Definition Z2float (z : Z) : float :=
  SF2Prim (binary_normalize prec emax z 0 false).

(** [x > 0], the comparison [max(0, x)] performs. *)
Definition py_gt0 (x : pynum) : bool :=
  match x with
  | PyInt z => 0 <? z
  | PyFloat f => (0 <? f)%float
  end.

(** [max(0, x)]: the builtin keeps its first argument unless a later one
    compares strictly greater, so a NaN or a non-positive [x] gives the
    int [0]. *)
Definition py_max0 (x : pynum) : pynum :=
  if py_gt0 x then x else PyInt 0.

(** [c * x] for an int [c] and a float [x]. *)
Definition py_int_mul_float (c : Z) (x : float) : pynum :=
  PyFloat (Z2float c * x)%float.

(** [0 <= x], read on the value the DataFrame column holds. *)
Definition py_nonneg (x : pynum) : Prop :=
  match x with
  | PyInt z => 0 <= z
  | PyFloat f => (0 <=? f)%float = true
  end.

Section Round.
(** [round(f, 2)] on a float is the interpreter's correctly rounded
    decimal rounding; it is a parameter of the development. *)
Variable float_round2 : float -> float.

(** [round(x, 2)]: an int is returned unchanged. *)
Definition py_round2 (x : pynum) : pynum :=
  match x with
  | PyInt z => PyInt z
  | PyFloat f => PyFloat (float_round2 f)
  end.
End Round.

(** *** Facts on binary64 comparisons and products *)

Lemma Z2float_0 : Z2float 0 = 0%float.
Proof. reflexivity. Qed.

(** A product with zero is a zero or a NaN, so never strictly positive. *)
Lemma zero_mul_not_pos (x : float) : (0 <? 0 * x)%float = false.
Proof.
  rewrite ltb_spec, mul_spec.
  destruct (Prim2SF x) as [s | s | | s m e]; try destruct s; reflexivity.
Qed.

Lemma ltb_leb (x y : float) : (x <? y)%float = true -> (x <=? y)%float = true.
Proof.
  rewrite ltb_spec, leb_spec. unfold SFltb, SFleb.
  destruct (SFcompare (Prim2SF x) (Prim2SF y)) as [[ | | ] | ]; congruence.
Qed.

(** [max(0, x)] is the int [0] or a strictly positive [x]. *)
Lemma py_max0_cases (x : pynum) :
  py_max0 x = PyInt 0 \/ (py_max0 x = x /\ py_gt0 x = true).
Proof. unfold py_max0. destruct (py_gt0 x); auto. Qed.

Lemma py_max0_int_mul_zero (x : float) :
  py_max0 (py_int_mul_float 0 x) = PyInt 0.
Proof.
  unfold py_max0, py_int_mul_float, py_gt0.
  rewrite Z2float_0, zero_mul_not_pos. reflexivity.
Qed.

End Py.

(* ===================================================================== *)
(** ** Calendar days *)
(* ===================================================================== *)

Module Calendar.

(** A pandas [Timestamp] at midnight, counted in days since 1970-01-01. *)
Definition day := Z.

(** Day number of the civil date [y-m-d] (proleptic Gregorian calendar). *)
Definition days_from_civil (y m d : Z) : day :=
  let y' := if m <=? 2 then y - 1 else y in
  let era := y' / 400 in
  let yoe := y' - era * 400 in
  let mp := if 2 <? m then m - 3 else m + 9 in
  let doy := (153 * mp + 2) / 5 + d - 1 in
  let doe := yoe * 365 + yoe / 4 - yoe / 100 + doy in
  era * 146097 + doe - 719468.

(** The civil date [(y, m, d)] of a day number. *)
Definition civil_from_days (z : day) : Z * Z * Z :=
  let z' := z + 719468 in
  let era := z' / 146097 in
  let doe := z' - era * 146097 in
  let yoe := (doe - doe / 1460 + doe / 36524 - doe / 146096) / 365 in
  let doy := doe - (365 * yoe + yoe / 4 - yoe / 100) in
  let mp := (5 * doy + 2) / 153 in
  let d := doy - (153 * mp + 2) / 5 + 1 in
  let m := if mp <? 10 then mp + 3 else mp - 9 in
  let y := yoe + era * 400 in
  (if m <=? 2 then y + 1 else y, m, d).

(** [Timestamp.weekday()]: Monday is 0 and Sunday is 6.  Day 0
    (1970-01-01) was a Thursday. *)
Definition weekday (z : day) : Z := (z + 3) mod 7.

(** [pd.date_range(start, end, freq='D')]: every day from [start] to [end],
    both included; empty when [end] is before [start].  pandas raises
    [OutOfBoundsDatetime] on a bound no [Timestamp] can hold; that path is
    not part of this function, and the properties that promise a result for
    given dates take them between [timestamp_first_day] and
    [timestamp_last_day]. *)
Definition date_range (start_date end_date : day) : list day :=
  map (fun i => start_date + Z.of_nat i)
      (seq 0 (Z.to_nat (end_date - start_date + 1))).

Definition digit (n : Z) : ascii :=
  ascii_of_nat (48 + Z.to_nat (n mod 10)).

(** The last [width] decimal digits of [n], zero padded. *)
Fixpoint zero_pad (width : nat) (n : Z) (acc : string) : string :=
  match width with
  | O => acc
  | S w => zero_pad w (n / 10) (String (digit n) acc)
  end.

(** [date.strftime('%Y-%m-%d')]. *)
Definition strftime (z : day) : string :=
  let '(y, m, d) := civil_from_days z in
  zero_pad 4 y (String "-" (zero_pad 2 m (String "-" (zero_pad 2 d EmptyString)))).

(** *** Facts on weekdays *)

Lemma weekday_range (d : day) : 0 <= weekday d <= 6.
Proof. unfold weekday. pose proof (Z.mod_pos_bound (d + 3) 7). lia. Qed.

(** The index advances by one each day and wraps after Sunday. *)
Lemma weekday_next (d : day) : weekday (d + 1) = (weekday d + 1) mod 7.
Proof.
  unfold weekday. replace (d + 1 + 3) with ((d + 3) + 1) by lia.
  rewrite Z.add_mod_idemp_l by lia. reflexivity.
Qed.

(** 2024-09-02 was a Monday. *)
Example weekday_monday : weekday (days_from_civil 2024 9 2) = 0.
Proof. reflexivity. Qed.

(** *** Round trip between day numbers and civil dates *)

Ltac div_lia := Z.to_euclidean_division_equations; lia.

Lemma civil_from_days_fields (z : day) :
  let '(y, m, d) := civil_from_days z in 1 <= m <= 12 /\ 1 <= d <= 31.
Proof.
  unfold civil_from_days. cbv zeta.
  set (z' := z + 719468).
  set (era := z' / 146097).
  set (doe := z' - era * 146097).
  assert (Hdoe : 0 <= doe <= 146096) by (subst doe era; div_lia).
  clearbody doe. clear z' era.
  set (yoe := (doe - doe / 1460 + doe / 36524 - doe / 146096) / 365).
  assert (Hyoe : 0 <= yoe <= 399) by (subst yoe; div_lia).
  set (doy := doe - (365 * yoe + yoe / 4 - yoe / 100)).
  assert (Hdoy : 0 <= doy <= 365) by (subst doy yoe; div_lia).
  clearbody doy.
  set (mp := (5 * doy + 2) / 153).
  destruct (mp <? 10) eqn:E; subst mp; div_lia.
Qed.

(** The civil date of a day number denotes that day. *)
Lemma days_from_civil_from_days (z : day) :
  let '(y, m, d) := civil_from_days z in days_from_civil y m d = z.
Proof.
  unfold civil_from_days, days_from_civil. cbv zeta.
  set (z' := z + 719468).
  set (era := z' / 146097).
  set (doe := z' - era * 146097).
  assert (Hdoe : 0 <= doe <= 146096) by (subst doe era; div_lia).
  assert (Hz : z = era * 146097 + doe - 719468) by (subst doe z'; lia).
  clearbody doe era. clear z'. subst z.
  set (yoe := (doe - doe / 1460 + doe / 36524 - doe / 146096) / 365).
  assert (Hyoe : 0 <= yoe <= 399) by (subst yoe; div_lia).
  set (doy := doe - (365 * yoe + yoe / 4 - yoe / 100)).
  assert (Hdoy : 0 <= doy <= 365) by (subst doy yoe; div_lia).
  assert (Hd : doe = yoe * 365 + yoe / 4 - yoe / 100 + doy) by (subst doy; lia).
  clearbody doy yoe. subst doe.
  set (mp := (5 * doy + 2) / 153).
  assert (Hmp : 0 <= mp <= 11) by (subst mp; div_lia).
  set (d := doy - (153 * mp + 2) / 5 + 1).
  assert (Hdd : doy = (153 * mp + 2) / 5 + d - 1) by (subst d; lia).
  clearbody d mp. subst doy.
  destruct (mp <? 10) eqn:E.
  - apply Z.ltb_lt in E.
    destruct (mp + 3 <=? 2) eqn:E2; [apply Z.leb_le in E2; lia |].
    destruct (2 <? mp + 3) eqn:E3; [| apply Z.ltb_ge in E3; lia].
    replace (mp + 3 - 3) with mp by lia.
    replace ((yoe + era * 400) / 400) with era by div_lia.
    replace (yoe + era * 400 - era * 400) with yoe by lia. lia.
  - apply Z.ltb_ge in E.
    destruct (mp - 9 <=? 2) eqn:E2; [| apply Z.leb_gt in E2; lia].
    destruct (2 <? mp - 9) eqn:E3; [apply Z.ltb_lt in E3; lia |].
    replace (mp - 9 + 9) with mp by lia.
    replace (yoe + era * 400 + 1 - 1) with (yoe + era * 400) by lia.
    replace ((yoe + era * 400) / 400) with era by div_lia.
    replace (yoe + era * 400 - era * 400) with yoe by lia. lia.
Qed.

(** The first and the last whole day a pandas [Timestamp] can hold. *)
Definition timestamp_first_day : day := days_from_civil 1677 9 22.
Definition timestamp_last_day : day := days_from_civil 2262 4 11.

Lemma civil_from_days_year (z : day) :
  timestamp_first_day <= z <= timestamp_last_day ->
  let '(y, m, d) := civil_from_days z in 0 <= y <= 9999.
Proof.
  change timestamp_first_day with (-106751).
  change timestamp_last_day with 106751. intros Hz.
  unfold civil_from_days. cbv zeta.
  set (z' := z + 719468).
  set (era := z' / 146097).
  set (doe := z' - era * 146097).
  assert (Hera : 4 <= era <= 5) by (subst era z'; div_lia).
  assert (Hdoe : 0 <= doe <= 146096) by (subst doe era; div_lia).
  clearbody doe era.
  set (yoe := (doe - doe / 1460 + doe / 36524 - doe / 146096) / 365).
  assert (Hyoe : 0 <= yoe <= 399) by (subst yoe; div_lia).
  clearbody yoe.
  match goal with |- context [if ?b then _ else _] => destruct b end; lia.
Qed.

Lemma digit_inj (a b : Z) : digit a = digit b -> a mod 10 = b mod 10.
Proof.
  unfold digit. intros H. apply (f_equal nat_of_ascii) in H.
  rewrite !nat_ascii_embedding in H
    by (pose proof (Z.mod_pos_bound a 10); pose proof (Z.mod_pos_bound b 10); lia).
  pose proof (Z.mod_pos_bound a 10). pose proof (Z.mod_pos_bound b 10). lia.
Qed.

(** Within the days a [Timestamp] can hold, two days that print the same
    ['%Y-%m-%d'] string are the same day. *)
Theorem strftime_inj (z1 z2 : day) :
  timestamp_first_day <= z1 <= timestamp_last_day ->
  timestamp_first_day <= z2 <= timestamp_last_day ->
  strftime z1 = strftime z2 -> z1 = z2.
Proof.
  intros H1 H2. unfold strftime.
  pose proof (civil_from_days_year z1 H1) as Hy1.
  pose proof (civil_from_days_year z2 H2) as Hy2.
  pose proof (civil_from_days_fields z1) as Hf1.
  pose proof (civil_from_days_fields z2) as Hf2.
  pose proof (days_from_civil_from_days z1) as Hr1.
  pose proof (days_from_civil_from_days z2) as Hr2.
  destruct (civil_from_days z1) as [[y1 m1] d1].
  destruct (civil_from_days z2) as [[y2 m2] d2].
  simpl. intros Heq.
  injection Heq as Ha Hb Hc Hd He Hf Hg Hh.
  apply digit_inj in Ha, Hb, Hc, Hd, He, Hf, Hg, Hh.
  assert (y1 = y2) by div_lia.
  assert (m1 = m2) by div_lia.
  assert (d1 = d2) by div_lia.
  congruence.
Qed.

End Calendar.

(* ===================================================================== *)
(** ** The synthetic data generator ([src/extract_data.py]) *)
(* ===================================================================== *)

Module ExtractData.
Import Py Calendar.

(** One dictionary appended to [data], with its keys in insertion order. *)
Record row : Type := {
  date : string;
  source : string;
  sessions : Z;
  conversions : Z;
  revenue : pynum;
  spend : pynum
}.

(** The four variables each branch of the [if]/[elif] chain assigns. *)
Record params : Type := {
  avg_sessions : Z;
  avg_conv_rate : float;
  avg_spend : Z;
  avg_revenue_per_conv : Z
}.

Definition google_ads : params :=
  {| avg_sessions := 1500; avg_conv_rate := 0.05;
     avg_spend := 3000; avg_revenue_per_conv := 150 |}.
Definition facebook_ads : params :=
  {| avg_sessions := 1200; avg_conv_rate := 0.04;
     avg_spend := 2500; avg_revenue_per_conv := 120 |}.
Definition linkedin : params :=
  {| avg_sessions := 400; avg_conv_rate := 0.06;
     avg_spend := 1500; avg_revenue_per_conv := 200 |}.
Definition email : params :=
  {| avg_sessions := 800; avg_conv_rate := 0.08;
     avg_spend := 500; avg_revenue_per_conv := 100 |}.
Definition direct : params :=
  {| avg_sessions := 2000; avg_conv_rate := 0.03;
     avg_spend := 0; avg_revenue_per_conv := 80 |}.

(** Lines 41-65: the chain of string comparisons, with [else] as the
    Direct parameters. *)
Definition source_params (source : string) : params :=
  if String.eqb source "Google Ads" then google_ads
  else if String.eqb source "Facebook Ads" then facebook_ads
  else if String.eqb source "LinkedIn" then linkedin
  else if String.eqb source "Email" then email
  else direct.

(** Line 68. *)
Definition weekday_factor (d : day) : float :=
  if 5 <=? weekday d then 0.7%float else 1.0%float.

(** The default value of the [sources] argument. *)
Definition default_sources : list string :=
  ["Google Ads"; "Facebook Ads"; "LinkedIn"; "Email"; "Direct"]%string.

(** A call into [np.random], as recorded in the trace of draws. *)
Inductive draw : Type :=
| DPoisson (lam : float)
| DBinomial (n : Z) (p : float)
| DNormal (loc scale : float).

Inductive exn : Type :=
| ValueError (msg : string).

(** Largest [lam] numpy's Poisson sampler accepts. *)
Definition POISSON_LAM_MAX : float := 9.223372006484771e+18%float.

Section Generator.
(** numpy's global generator: its state, seeding, and the three raw
    samplers, each returning the draw and the next state. *)
Variable rng : Type.
Variable seed : Z -> rng.
Variable poisson : float -> rng -> Z * rng.
Variable binomial : Z -> float -> rng -> Z * rng.
Variable normal : float -> float -> rng -> float * rng.
Variable float_round2 : float -> float.

(** The generator state together with the draws made since it was last
    seeded (the trace is a ghost: no code reads it). *)
Record np_state : Type := {
  np_rng : rng;
  np_trace : list draw
}.

Inductive outcome (A : Type) : Type :=
| Raised (e : exn)
| Returned (a : A) (st : np_state).
Arguments Raised {A} e.
Arguments Returned {A} a st.

(** Computations that read and advance [np.random]'s state and may raise. *)
Definition M (A : Type) : Type := np_state -> outcome A.

Definition ret {A} (a : A) : M A := fun st => Returned a st.

Definition bind {A B} (c : M A) (k : A -> M B) : M B :=
  fun st =>
    match c st with
    | Raised e => Raised e
    | Returned a st' => k a st'
    end.

Definition raise {A} (e : exn) : M A := fun _ => Raised e.

Notation "'let*' x ':=' c 'in' k" := (bind c (fun x => k))
  (at level 10, x name, c at level 100, k at level 200).

(** Take one draw from a raw sampler and log it. *)
Definition sample {A} (d : draw) (f : rng -> A * rng) : M A :=
  fun st =>
    let '(a, g) := f (np_rng st) in
    Returned a {| np_rng := g; np_trace := np_trace st ++ [d] |}.

(** [np.random.seed(s)]. *)
Definition np_random_seed (s : Z) : M unit :=
  fun _ => Returned tt {| np_rng := seed s; np_trace := [] |}.

(** [np.random.poisson(lam)], with numpy's argument checks. *)
Definition np_random_poisson (lam : float) : M Z :=
  if negb (lam <=? POISSON_LAM_MAX)%float then
    raise (ValueError "lam value too large")
  else if negb (0 <=? lam)%float then
    raise (ValueError "lam < 0 or lam is NaN")
  else sample (DPoisson lam) (poisson lam).

(** [np.random.binomial(n, p)], with numpy's argument checks. *)
Definition np_random_binomial (n : Z) (p : float) : M Z :=
  if negb ((0 <=? p)%float && (p <=? 1)%float) then
    raise (ValueError "p < 0, p > 1 or p is NaN")
  else if n <? 0 then
    raise (ValueError "n < 0")
  else sample (DBinomial n p) (binomial n p).

(** [np.random.normal(loc, scale)], with numpy's argument check (a
    negative sign bit on a scale that is not NaN). *)
Definition np_random_normal (loc scale : float) : M float :=
  if negb (is_nan scale) && get_sign scale then
    raise (ValueError "scale < 0")
  else sample (DNormal loc scale) (normal loc scale).

(** A [for] loop whose body updates an accumulator. *)
Fixpoint for_in {A S} (l : list A) (body : A -> S -> M S) (acc : S) : M S :=
  match l with
  | [] => ret acc
  | x :: l' => let* acc' := body x acc in for_in l' body acc'
  end.

(** Line 73: a draw when the channel spends, the int [0] otherwise. *)
Definition draw_spend (p : params) : M pynum :=
  if 0 <? avg_spend p
  then let* x := np_random_normal
                   (Z2float (avg_spend p))
                   (Z2float (avg_spend p) * 0.2)%float in
       ret (PyFloat x)
  else ret (PyInt 0).

(** Lines 41-87: the body of the inner loop, up to the dictionary that
    is appended. *)
Definition gen_row (d : day) (src : string) : M row :=
  let p := source_params src in
  let* sessions_ := np_random_poisson
                      (Z2float (avg_sessions p) * weekday_factor d)%float in
  let* conversions_ := np_random_binomial sessions_ (avg_conv_rate p) in
  let* spend_ := draw_spend p in
  let* x := np_random_normal
              (Z2float (avg_revenue_per_conv p))
              (Z2float (avg_revenue_per_conv p) * 0.3)%float in
  let revenue_ := py_int_mul_float conversions_ x in
  let spend_ := py_max0 spend_ in
  let revenue_ := py_max0 revenue_ in
  ret {| date := strftime d;
         source := src;
         sessions := sessions_;
         conversions := conversions_;
         revenue := py_round2 float_round2 revenue_;
         spend := py_round2 float_round2 spend_ |}.

(** [generate_marketing_data(start_date, end_date, sources)].  The two
    dates are the Timestamps pandas parses the arguments to; the
    DataFrame is the list of its rows; the two [print]s are left out. *)
Definition generate_marketing_data
    (start_date end_date : day) (sources : list string) : M (list row) :=
  let dates := date_range start_date end_date in
  let* _ := np_random_seed 42 in
  let* data := for_in dates (fun d data =>
                 for_in sources (fun src data =>
                   let* r := gen_row d src in
                   ret (data ++ [r])) data) [] in
  ret data.

(** *** numpy's contract for the samplers and the interpreter's for [round] *)

(** A Poisson draw with a valid mean is a count. *)
Hypothesis poisson_nonneg :
  forall lam g, (0 <=? lam)%float = true -> 0 <= fst (poisson lam g).

(** A Binomial draw counts successes among [n] trials. *)
Hypothesis binomial_range :
  forall n p g, 0 <= n -> ((0 <=? p) && (p <=? 1))%float = true ->
    0 <= fst (binomial n p g) <= n.

(** Rounding a positive float to two decimals does not make it negative. *)
Hypothesis float_round2_nonneg :
  forall x, (0 <? x)%float = true -> (0 <=? float_round2 x)%float = true.

(** *** One iteration of the inner loop *)

Lemma source_params_cases (src : string) :
  In (source_params src) [google_ads; facebook_ads; linkedin; email; direct].
Proof.
  unfold source_params.
  repeat match goal with |- context [String.eqb ?a ?b] =>
    destruct (String.eqb a b) end; simpl; auto 10.
Qed.

(** The mean handed to the Poisson sampler passes numpy's checks. *)
Lemma sessions_mean_valid (d : day) (src : string) :
  let lam := (Z2float (avg_sessions (source_params src)) * weekday_factor d)%float in
  (lam <=? POISSON_LAM_MAX)%float = true /\ (0 <=? lam)%float = true.
Proof.
  unfold weekday_factor.
  destruct (source_params_cases src) as [<- | [<- | [<- | [<- | [<- | []]]]]];
    destruct (5 <=? weekday d); split; reflexivity.
Qed.

Lemma conv_rate_valid (src : string) :
  let p := avg_conv_rate (source_params src) in
  ((0 <=? p) && (p <=? 1))%float = true.
Proof.
  destruct (source_params_cases src) as [<- | [<- | [<- | [<- | [<- | []]]]]];
    reflexivity.
Qed.

Lemma spend_scale_valid (src : string) :
  let s := (Z2float (avg_spend (source_params src)) * 0.2)%float in
  negb (is_nan s) && get_sign s = false.
Proof.
  destruct (source_params_cases src) as [<- | [<- | [<- | [<- | [<- | []]]]]];
    reflexivity.
Qed.

Lemma revenue_scale_valid (src : string) :
  let s := (Z2float (avg_revenue_per_conv (source_params src)) * 0.3)%float in
  negb (is_nan s) && get_sign s = false.
Proof.
  destruct (source_params_cases src) as [<- | [<- | [<- | [<- | [<- | []]]]]];
    reflexivity.
Qed.

(** The spend before clamping, the generator state after it and the draws
    it logged, started from the raw state [g]. *)
Definition spend_draws (p : params) (g : rng) : pynum * rng * list draw :=
  if 0 <? avg_spend p then
    let loc := Z2float (avg_spend p) in
    let scale := (Z2float (avg_spend p) * 0.2)%float in
    (PyFloat (fst (normal loc scale g)), snd (normal loc scale g),
     [DNormal loc scale])
  else (PyInt 0, g, []).

(** The row one iteration appends, the generator state it leaves and the
    draws it logged, once numpy's argument checks are known to pass. *)
Definition row_draws (d : day) (src : string) (g : rng) : row * rng * list draw :=
  let p := source_params src in
  let lam := (Z2float (avg_sessions p) * weekday_factor d)%float in
  let s := poisson lam g in
  let c := binomial (fst s) (avg_conv_rate p) (snd s) in
  let '(sp, g3, ds) := spend_draws p (snd c) in
  let loc := Z2float (avg_revenue_per_conv p) in
  let scale := (Z2float (avg_revenue_per_conv p) * 0.3)%float in
  let x := normal loc scale g3 in
  ({| date := strftime d;
      source := src;
      sessions := fst s;
      conversions := fst c;
      revenue := py_round2 float_round2
                   (py_max0 (py_int_mul_float (fst c) (fst x)));
      spend := py_round2 float_round2 (py_max0 sp) |},
   snd x,
   DPoisson lam :: DBinomial (fst s) (avg_conv_rate p) :: ds ++ [DNormal loc scale]).

Lemma sample_run {A} (dr : draw) (f : rng -> A * rng) (st : np_state) :
  sample dr f st =
  Returned (fst (f (np_rng st)))
           {| np_rng := snd (f (np_rng st)); np_trace := np_trace st ++ [dr] |}.
Proof. unfold sample. destruct (f (np_rng st)); reflexivity. Qed.

Lemma np_random_poisson_run (lam : float) (st : np_state) :
  (lam <=? POISSON_LAM_MAX)%float = true -> (0 <=? lam)%float = true ->
  np_random_poisson lam st =
  Returned (fst (poisson lam (np_rng st)))
           {| np_rng := snd (poisson lam (np_rng st));
              np_trace := np_trace st ++ [DPoisson lam] |}.
Proof.
  intros Hmax Hlam. unfold np_random_poisson. rewrite Hmax, Hlam.
  apply sample_run.
Qed.

Lemma np_random_binomial_run (n : Z) (p : float) (st : np_state) :
  ((0 <=? p) && (p <=? 1))%float = true -> 0 <= n ->
  np_random_binomial n p st =
  Returned (fst (binomial n p (np_rng st)))
           {| np_rng := snd (binomial n p (np_rng st));
              np_trace := np_trace st ++ [DBinomial n p] |}.
Proof.
  intros Hp Hn. unfold np_random_binomial. rewrite Hp.
  destruct (Z.ltb_spec n 0) as [Hneg | _]; [lia |]. apply sample_run.
Qed.

Lemma np_random_normal_run (loc scale : float) (st : np_state) :
  negb (is_nan scale) && get_sign scale = false ->
  np_random_normal loc scale st =
  Returned (fst (normal loc scale (np_rng st)))
           {| np_rng := snd (normal loc scale (np_rng st));
              np_trace := np_trace st ++ [DNormal loc scale] |}.
Proof.
  intros Hs. unfold np_random_normal. rewrite Hs. apply sample_run.
Qed.

Lemma draw_spend_run (src : string) (st : np_state) :
  draw_spend (source_params src) st =
  let out := spend_draws (source_params src) (np_rng st) in
  Returned (fst (fst out))
           {| np_rng := snd (fst out); np_trace := np_trace st ++ snd out |}.
Proof.
  unfold spend_draws, draw_spend.
  destruct (0 <? avg_spend (source_params src)); cbn [fst snd].
  - unfold bind. rewrite np_random_normal_run by apply spend_scale_valid.
    reflexivity.
  - unfold ret. rewrite app_nil_r. destruct st; reflexivity.
Qed.

(** The body never raises: it returns the row of [row_draws]. *)
Lemma gen_row_run (d : day) (src : string) (st : np_state) :
  gen_row d src st =
  let out := row_draws d src (np_rng st) in
  Returned (fst (fst out))
           {| np_rng := snd (fst out); np_trace := np_trace st ++ snd out |}.
Proof.
  unfold row_draws, gen_row.
  destruct (sessions_mean_valid d src) as [Hmax Hlam].
  set (lam := (Z2float (avg_sessions (source_params src)) * weekday_factor d)%float) in *.
  pose proof (poisson_nonneg lam (np_rng st) Hlam) as Hs.
  unfold bind at 1. rewrite np_random_poisson_run by assumption.
  set (s := poisson lam (np_rng st)) in *.
  unfold bind at 1.
  rewrite np_random_binomial_run by (apply conv_rate_valid || assumption).
  cbn [np_rng np_trace].
  set (c := binomial (fst s) (avg_conv_rate (source_params src)) (snd s)).
  unfold bind at 1. rewrite draw_spend_run. cbn [np_rng np_trace].
  destruct (spend_draws (source_params src) (snd c)) as [[sp g3] ds].
  cbn [fst snd]. cbv zeta.
  unfold bind at 1.
  rewrite np_random_normal_run by apply revenue_scale_valid.
  cbn [np_rng np_trace fst snd].
  unfold ret. rewrite <- !app_assoc. reflexivity.
Qed.

(** *** The two loops *)

Section Loops.
Variable P : day -> string -> row -> Prop.
Hypothesis P_row : forall d src g, P d src (fst (fst (row_draws d src g))).

Lemma for_sources_rows (d : day) (sources : list string) :
  forall data st, exists rows st',
    for_in sources (fun src data =>
      let* r := gen_row d src in ret (data ++ [r])) data st
    = Returned (data ++ rows) st'
    /\ Forall2 (P d) sources rows.
Proof.
  induction sources as [| src sources IH]; intros data st; simpl.
  - exists [], st. rewrite app_nil_r. split; [reflexivity | constructor].
  - unfold bind at 1. unfold bind at 1. rewrite gen_row_run. cbv zeta.
    unfold ret at 1.
    destruct (IH (data ++ [fst (fst (row_draws d src (np_rng st)))])
                 {| np_rng := snd (fst (row_draws d src (np_rng st)));
                    np_trace := np_trace st ++ snd (row_draws d src (np_rng st)) |})
      as (rows & st' & Hrun & Hrows).
    exists (fst (fst (row_draws d src (np_rng st))) :: rows), st'.
    rewrite Hrun, <- app_assoc. split; [reflexivity |].
    constructor; [apply P_row | exact Hrows].
Qed.

Lemma for_dates_rows (dates : list day) (sources : list string) :
  forall data st, exists rows st',
    for_in dates (fun d data =>
      for_in sources (fun src data =>
        let* r := gen_row d src in ret (data ++ [r])) data) data st
    = Returned (data ++ rows) st'
    /\ Forall2 (fun ds r => P (fst ds) (snd ds) r) (list_prod dates sources) rows.
Proof.
  induction dates as [| d dates IH]; intros data st; simpl.
  - exists [], st. rewrite app_nil_r. split; [reflexivity | constructor].
  - unfold bind at 1.
    destruct (for_sources_rows d sources data st) as (rows1 & st1 & Hrun1 & Hrows1).
    rewrite Hrun1.
    destruct (IH (data ++ rows1) st1) as (rows2 & st2 & Hrun2 & Hrows2).
    exists (rows1 ++ rows2), st2. rewrite Hrun2, <- app_assoc.
    split; [reflexivity |].
    apply Forall2_app; [| exact Hrows2].
    clear - Hrows1. induction Hrows1; simpl; constructor; auto.
Qed.

(** The generator returns, and its rows follow the (date, source) pairs in
    loop order, each row satisfying [P] for its pair. *)
Lemma generate_rows (start_date end_date : day) (sources : list string)
    (st : np_state) :
  exists df st',
    generate_marketing_data start_date end_date sources st = Returned df st'
    /\ Forall2 (fun ds r => P (fst ds) (snd ds) r)
               (list_prod (date_range start_date end_date) sources) df.
Proof.
  unfold generate_marketing_data. unfold bind at 1. unfold np_random_seed.
  unfold bind at 1.
  destruct (for_dates_rows (date_range start_date end_date) sources []
              {| np_rng := seed 42; np_trace := [] |})
    as (rows & st' & Hrun & Hrows).
  rewrite Hrun. exists rows, st'. split; [reflexivity | exact Hrows].
Qed.

End Loops.

Lemma Forall2_Forall_r {A B} (Q : A -> B -> Prop) (R : B -> Prop)
    (l : list A) (k : list B) :
  (forall a b, Q a b -> R b) -> Forall2 Q l k -> Forall R k.
Proof. intros HQR H. induction H; constructor; eauto. Qed.

Lemma date_range_length (start_date end_date : day) :
  start_date <= end_date ->
  Z.of_nat (length (date_range start_date end_date)) = end_date - start_date + 1.
Proof.
  intros H. unfold date_range. rewrite length_map, length_seq. lia.
Qed.

(** The four channels with a branch of their own. *)
Definition paid (src : string) : Prop :=
  src = "Google Ads"%string \/ src = "Facebook Ads"%string \/
  src = "LinkedIn"%string \/ src = "Email"%string.

Lemma source_params_else (src : string) :
  ~ paid src -> source_params src = direct.
Proof.
  unfold paid, source_params. intros H.
  repeat match goal with |- context [String.eqb ?a ?b] =>
    destruct (String.eqb_spec a b) end; try reflexivity; tauto.
Qed.

(** *** Properties of the generated records *)

(** C2: every generated record has [0 <= conversions <= sessions], and its
    [conversions] is the Binomial draw made with [n] the record's sessions
    and [p] the conversion rate of the channel's parameters. *)
Theorem conversions_within_sessions
    (start_date end_date : day) (sources : list string) (st : np_state) :
  (exists df st',
     generate_marketing_data start_date end_date sources st = Returned df st'
     /\ Forall (fun r => 0 <= conversions r <= sessions r) df)
  /\ (forall d src st0, exists r st' g later,
        gen_row d src st0 = Returned r st'
        /\ conversions r =
           fst (binomial (sessions r) (avg_conv_rate (source_params src)) g)
        /\ np_trace st' =
           np_trace st0 ++
           DPoisson (Z2float (avg_sessions (source_params src)) * weekday_factor d)
           :: DBinomial (sessions r) (avg_conv_rate (source_params src))
           :: later).
Proof.
  assert (Hrow : forall d src g,
            let r := fst (fst (row_draws d src g)) in
            0 <= conversions r <= sessions r).
  { intros d src g. unfold row_draws.
    destruct (spend_draws _ _) as [[sp g3] ds]. cbn.
    apply binomial_range; [| apply conv_rate_valid].
    apply poisson_nonneg, sessions_mean_valid. }
  split.
  - destruct (generate_rows (fun _ _ r => 0 <= conversions r <= sessions r)
                Hrow start_date end_date sources st) as (df & st' & Hrun & Hdf).
    exists df, st'. split; [exact Hrun |].
    eapply Forall2_Forall_r; [| exact Hdf]. auto.
  - intros d src st0. rewrite gen_row_run. cbv zeta. unfold row_draws.
    destruct (spend_draws _ _) as [[sp g3] ds]. cbn [fst snd].
    eexists _, _, _, _. split; [reflexivity |]. cbn [conversions sessions np_trace].
    split; reflexivity.
Qed.

(** C3: for two days a [Timestamp] can hold with [start_date <= end_date]
    the generator returns exactly (days in the inclusive range) x (number
    of channels) records, one per (date, channel) pair, in loop order. *)
Theorem generate_row_count
    (start_date end_date : day) (sources : list string) (st : np_state) :
  timestamp_first_day <= start_date -> end_date <= timestamp_last_day ->
  start_date <= end_date ->
  exists df st',
    generate_marketing_data start_date end_date sources st = Returned df st'
    /\ Z.of_nat (length df) =
       (end_date - start_date + 1) * Z.of_nat (length sources)
    /\ map (fun r => (date r, source r)) df =
       map (fun ds => (strftime (fst ds), snd ds))
           (list_prod (date_range start_date end_date) sources).
Proof.
  intros _ _ Hle.
  destruct (generate_rows (fun d src r => date r = strftime d /\ source r = src))
    with (start_date := start_date) (end_date := end_date)
         (sources := sources) (st := st) as (df & st' & Hrun & Hdf).
  { intros d src g. unfold row_draws.
    destruct (spend_draws _ _) as [[sp g3] ds]. cbn. auto. }
  exists df, st'. split; [exact Hrun |]. split.
  - rewrite <- (Forall2_length _ _ _ Hdf), length_prod, Nat2Z.inj_mul.
    rewrite date_range_length by exact Hle. reflexivity.
  - clear Hrun. induction Hdf as [| ds r l k [Hd Hs] _ IH]; simpl.
    + reflexivity.
    + rewrite Hd, Hs, IH. reflexivity.
Qed.

(** C4: every generated record has [spend >= 0] and [revenue >= 0]; a draw
    that is not strictly positive is replaced by [0] before rounding. *)
Theorem spend_revenue_nonneg
    (start_date end_date : day) (sources : list string) (st : np_state) :
  (exists df st',
     generate_marketing_data start_date end_date sources st = Returned df st'
     /\ Forall (fun r => py_nonneg (spend r) /\ py_nonneg (revenue r)) df)
  /\ (forall x, py_gt0 x = false ->
        py_round2 float_round2 (py_max0 x) = PyInt 0).
Proof.
  assert (Hclamp : forall x, py_nonneg (py_round2 float_round2 (py_max0 x))).
  { intros x. destruct (py_max0_cases x) as [-> | [-> Hpos]]; [simpl; lia |].
    destruct x as [z | f]; simpl in *; [lia |].
    apply float_round2_nonneg, Hpos. }
  split.
  - destruct (generate_rows
                (fun _ _ r => py_nonneg (spend r) /\ py_nonneg (revenue r)))
      with (start_date := start_date) (end_date := end_date)
           (sources := sources) (st := st) as (df & st' & Hrun & Hdf).
    { intros d src g. unfold row_draws.
      destruct (spend_draws _ _) as [[sp g3] ds]. cbn. split; apply Hclamp. }
    exists df, st'. split; [exact Hrun |].
    eapply Forall2_Forall_r; [| exact Hdf]. auto.
  - intros x Hx. unfold py_max0. rewrite Hx. reflexivity.
Qed.

(** C5: the output (the rows, the final generator state, or the exception)
    does not depend on the state [np.random] was in before the call: two runs
    with the same dates and channel list return the same result. *)
Theorem generate_deterministic
    (start_date end_date : day) (sources : list string) (st1 st2 : np_state) :
  generate_marketing_data start_date end_date sources st1 =
  generate_marketing_data start_date end_date sources st2.
Proof.
  unfold generate_marketing_data. unfold bind at 1 3.
  (* the seeding discards the state it is run in *)
  unfold np_random_seed. reflexivity.
Qed.

(** C6: for every (date, channel) pair the body makes one Poisson draw, for
    [sessions], and its mean is the channel's [avg_sessions] times 0.7 when
    the date's weekday index is 5 or 6 and times 1.0 on the indices 0-4. *)
Theorem poisson_mean_weekday (d : day) (src : string) (st : np_state) :
  let base := Z2float (avg_sessions (source_params src)) in
  let mean := if 5 <=? weekday d then (base * 0.7)%float
              else (base * 1.0)%float in
  (5 <= weekday d <-> weekday d = 5 \/ weekday d = 6)
  /\ exists r st' later,
       gen_row d src st = Returned r st'
       /\ sessions r = fst (poisson mean (np_rng st))
       /\ np_trace st' = np_trace st ++ DPoisson mean :: later
       /\ (forall lam, ~ In (DPoisson lam) later).
Proof.
  cbv zeta. split; [pose proof (weekday_range d); lia |].
  rewrite gen_row_run. cbv zeta. unfold row_draws, spend_draws, weekday_factor.
  destruct (5 <=? weekday d), (0 <? avg_spend (source_params src));
    cbn [fst snd]; eexists _, _, _;
    (split; [reflexivity |]); cbn [sessions np_trace];
    (split; [reflexivity |]); (split; [reflexivity |]);
    intros lam Hin; simpl in Hin;
    repeat (destruct Hin as [Hin | Hin]; [discriminate |]); exact Hin.
Qed.

(** C7: a channel name outside the four paid ones takes the Direct
    parameters; its iteration returns, draws no spend (the only Normal draw
    is the revenue per conversion) and gives [spend = 0]; so every generated
    record of such a channel, Direct included, has [spend = 0]. *)
Theorem unpaid_source_zero_spend
    (start_date end_date : day) (sources : list string) (st : np_state) :
  (forall src, ~ paid src ->
     source_params src = direct
     /\ forall d st0, exists r st' n,
          gen_row d src st0 = Returned r st'
          /\ spend r = PyInt 0
          /\ np_trace st' =
             np_trace st0 ++
             [DPoisson (2000 * weekday_factor d); DBinomial n 0.03;
              DNormal 80 24])
  /\ ~ paid "Direct"
  /\ exists df st',
       generate_marketing_data start_date end_date sources st = Returned df st'
       /\ Forall (fun r => ~ paid (source r) -> spend r = PyInt 0) df.
Proof.
  split; [| split].
  - intros src Hsrc. pose proof (source_params_else src Hsrc) as Hp.
    split; [exact Hp |]. intros d st0.
    rewrite gen_row_run. cbv zeta. unfold row_draws, spend_draws.
    rewrite Hp. cbn. eexists _, _, _. repeat split.
  - unfold paid. intros [H | [H | [H | H]]]; discriminate.
  - destruct (generate_rows
                (fun _ _ r => ~ paid (source r) -> spend r = PyInt 0))
      with (start_date := start_date) (end_date := end_date)
           (sources := sources) (st := st) as (df & st' & Hrun & Hdf).
    { intros d src g. unfold row_draws, spend_draws.
      destruct (0 <? avg_spend (source_params src)) eqn:Hsp; cbn; [| reflexivity].
      intros Hsrc. rewrite (source_params_else src Hsrc) in Hsp. discriminate. }
    exists df, st'. split; [exact Hrun |].
    eapply Forall2_Forall_r; [| exact Hdf]. auto.
Qed.

(** C10: every generated record with [conversions = 0] has [revenue = 0]. *)
Theorem zero_conversions_zero_revenue
    (start_date end_date : day) (sources : list string) (st : np_state) :
  exists df st',
    generate_marketing_data start_date end_date sources st = Returned df st'
    /\ Forall (fun r => conversions r = 0 -> revenue r = PyInt 0) df.
Proof.
  destruct (generate_rows (fun _ _ r => conversions r = 0 -> revenue r = PyInt 0))
    with (start_date := start_date) (end_date := end_date)
         (sources := sources) (st := st) as (df & st' & Hrun & Hdf).
  { intros d src g. unfold row_draws.
    destruct (spend_draws _ _) as [[sp g3] ds]. cbn. intros ->.
    rewrite py_max0_int_mul_zero. reflexivity. }
  exists df, st'. split; [exact Hrun |].
  eapply Forall2_Forall_r; [| exact Hdf]. auto.
Qed.

(** *** Empty inputs and longer date ranges *)

Lemma for_in_app {A S} (l1 l2 : list A) (body : A -> S -> M S) (acc : S)
    (st : np_state) :
  for_in (l1 ++ l2) body acc st =
  match for_in l1 body acc st with
  | Raised e => Raised e
  | Returned acc' st' => for_in l2 body acc' st'
  end.
Proof.
  revert acc st. induction l1 as [| x l1 IH]; intros acc st; simpl.
  - reflexivity.
  - unfold bind. destruct (body x acc st) as [e | acc' st']; [reflexivity |].
    apply IH.
Qed.

Lemma date_range_empty (start_date end_date : day) :
  end_date < start_date -> date_range start_date end_date = [].
Proof.
  intros H. unfold date_range.
  replace (Z.to_nat (end_date - start_date + 1)) with 0%nat by lia.
  reflexivity.
Qed.

Lemma date_range_app (start_date mid end_date : day) :
  start_date <= mid + 1 -> mid <= end_date ->
  date_range start_date end_date =
  date_range start_date mid ++ date_range (mid + 1) end_date.
Proof.
  intros H1 H2. unfold date_range.
  replace (Z.to_nat (end_date - start_date + 1))
    with (Z.to_nat (mid - start_date + 1) + Z.to_nat (end_date - (mid + 1) + 1))%nat
    by lia.
  rewrite seq_app, map_app. f_equal.
  set (a := Z.to_nat (mid - start_date + 1)).
  generalize (Z.to_nat (end_date - (mid + 1) + 1)). intros n.
  replace (0 + a)%nat with (a + 0)%nat by lia. generalize 0%nat.
  induction n as [| n IH]; intros k; simpl; [reflexivity |].
  f_equal; [lia |]. rewrite <- IH. f_equal. f_equal. lia.
Qed.

(** The generator is its two loops run from the freshly seeded state. *)
Lemma generate_loops (start_date end_date : day) (sources : list string)
    (st : np_state) :
  generate_marketing_data start_date end_date sources st =
  match for_in (date_range start_date end_date) (fun d data =>
          for_in sources (fun src data =>
            let* r := gen_row d src in ret (data ++ [r])) data) []
          {| np_rng := seed 42; np_trace := [] |} with
  | Raised e => Raised e
  | Returned data st' => Returned data st'
  end.
Proof. reflexivity. Qed.

(** X2: for two days a [Timestamp] can hold, with no day in the range or
    no channel, the generator returns an empty dataset without a draw. *)
Theorem generate_empty
    (start_date end_date : day) (sources : list string) (st : np_state) :
  timestamp_first_day <= start_date <= timestamp_last_day ->
  timestamp_first_day <= end_date <= timestamp_last_day ->
  end_date < start_date \/ sources = [] ->
  generate_marketing_data start_date end_date sources st =
  Returned [] {| np_rng := seed 42; np_trace := [] |}.
Proof.
  unfold generate_marketing_data. unfold bind at 1. unfold np_random_seed.
  intros _ _ [Hlt | ->].
  - rewrite (date_range_empty _ _ Hlt). reflexivity.
  - unfold bind.
    assert (H : forall dates (data : list row) st0,
              for_in dates (fun d data =>
                for_in [] (fun src data =>
                  let* r := gen_row d src in ret (data ++ [r])) data) data st0
              = Returned data st0).
    { induction dates as [| d dates IH]; intros data st0; simpl;
        [reflexivity |]. unfold bind, ret. apply IH. }
    rewrite H. reflexivity.
Qed.

(** X1: moving the end date later, within the days a [Timestamp] can hold,
    only appends rows: the rows generated for [start_date .. end_date] are
    the first rows generated for a longer range with the same start and
    channels, and so are their draws. *)
Theorem generate_prefix
    (start_date end_date later_end : day) (sources : list string)
    (st : np_state) :
  timestamp_first_day <= start_date <= timestamp_last_day ->
  timestamp_first_day <= end_date ->
  later_end <= timestamp_last_day ->
  end_date <= later_end ->
  exists df st1 more st2 draws,
    generate_marketing_data start_date end_date sources st = Returned df st1
    /\ generate_marketing_data start_date later_end sources st
       = Returned (df ++ more) st2
    /\ np_trace st2 = np_trace st1 ++ draws.
Proof.
  intros _ _ _ Hle.
  assert (Hdates : exists rest,
            date_range start_date later_end =
            date_range start_date end_date ++ rest).
  { destruct (Z_lt_le_dec end_date (start_date - 1)) as [Hlt | Hge].
    - exists (date_range start_date later_end).
      rewrite (date_range_empty start_date end_date) by lia. reflexivity.
    - exists (date_range (end_date + 1) later_end).
      apply date_range_app; lia. }
  destruct Hdates as [rest Hrest].
  rewrite !generate_loops, Hrest, for_in_app.
  destruct (for_dates_rows (fun _ _ _ => True) (fun _ _ _ => I)
              (date_range start_date end_date) sources []
              {| np_rng := seed 42; np_trace := [] |})
    as (df & st1 & Hrun1 & _).
  simpl app in Hrun1. rewrite Hrun1.
  assert (Htrace : forall dates data st0, exists rows st' draws,
            for_in dates (fun d data =>
              for_in sources (fun src data =>
                let* r := gen_row d src in ret (data ++ [r])) data) data st0
            = Returned (data ++ rows) st'
            /\ np_trace st' = np_trace st0 ++ draws).
  { induction dates as [| d dates IH]; intros data st0; simpl.
    - exists [], st0, []. rewrite !app_nil_r. auto.
    - unfold bind at 1.
      assert (Hin : forall srcs data st0, exists rows st' draws,
                for_in srcs (fun src data =>
                  let* r := gen_row d src in ret (data ++ [r])) data st0
                = Returned (data ++ rows) st'
                /\ np_trace st' = np_trace st0 ++ draws).
      { clear IH. induction srcs as [| src srcs IHs]; intros data' st'; simpl.
        - exists [], st', []. rewrite !app_nil_r. auto.
        - unfold bind at 1. unfold bind at 1. rewrite gen_row_run. cbv zeta.
          unfold ret at 1.
          edestruct IHs as (rows & st'' & draws & Hrun & Htr).
          rewrite Hrun. eexists (_ :: rows), st'', _.
          rewrite <- app_assoc. split; [reflexivity |].
          rewrite Htr. cbn [np_trace]. rewrite <- app_assoc. reflexivity. }
      destruct (Hin sources data st0) as (rows1 & sta & draws1 & Hruna & Htra).
      rewrite Hruna.
      destruct (IH (data ++ rows1) sta) as (rows2 & stb & draws2 & Hrunb & Htrb).
      rewrite Hrunb. exists (rows1 ++ rows2), stb, (draws1 ++ draws2).
      rewrite <- app_assoc. split; [reflexivity |].
      rewrite Htrb, Htra, <- app_assoc. reflexivity. }
  destruct (Htrace rest df st1) as (more & st2 & draws & Hrun2 & Htr).
  rewrite Hrun2. exists df, st1, more, st2, draws. auto.
Qed.

(** *** The (date, source) pair is a key of the generated dataset *)

Lemma NoDup_map_in {A B} (f : A -> B) (l : list A) :
  (forall x y, In x l -> In y l -> f x = f y -> x = y) ->
  List.NoDup l -> List.NoDup (map f l).
Proof.
  induction l as [| a l IH]; intros Hinj Hnd; simpl; [constructor |].
  inversion Hnd as [| ? ? Hnotin Hnd']; subst. constructor.
  - rewrite in_map_iff. intros (y & Heq & Hy).
    apply Hinj in Heq; simpl; auto. subst. contradiction.
  - apply IH; [| exact Hnd']. intros x y Hx Hy. apply Hinj; simpl; auto.
Qed.

Lemma NoDup_list_prod {A B} (l : list A) (k : list B) :
  List.NoDup l -> List.NoDup k -> List.NoDup (list_prod l k).
Proof.
  intros Hl Hk. induction Hl as [| a l Hnotin Hl IH]; simpl; [constructor |].
  apply List.NoDup_app.
  - apply NoDup_map_in; [| exact Hk]. intros x y _ _ [= ->]. reflexivity.
  - exact IH.
  - intros [a' b] Hin1 Hin2. apply in_map_iff in Hin1 as (b' & [= <- <-] & _).
    apply in_prod_iff in Hin2 as [Hin2 _]. contradiction.
Qed.

Lemma date_range_In (start_date end_date d : day) :
  In d (date_range start_date end_date) <-> start_date <= d <= end_date.
Proof.
  unfold date_range. rewrite in_map_iff. split.
  - intros (i & <- & Hi). apply in_seq in Hi. lia.
  - intros Hd. exists (Z.to_nat (d - start_date)). split; [lia |].
    apply in_seq. lia.
Qed.

Lemma date_range_NoDup (start_date end_date : day) :
  List.NoDup (date_range start_date end_date).
Proof.
  unfold date_range. apply NoDup_map_in; [| apply seq_NoDup].
  intros x y _ _ H. lia.
Qed.

(** X3: for a range of days a [Timestamp] can hold and a channel list without
    repetition, no two generated rows share their date string and source. *)
Theorem date_source_key
    (start_date end_date : day) (sources : list string) (st : np_state) :
  timestamp_first_day <= start_date -> end_date <= timestamp_last_day ->
  List.NoDup sources ->
  exists df st',
    generate_marketing_data start_date end_date sources st = Returned df st'
    /\ List.NoDup (map (fun r => (date r, source r)) df).
Proof.
  intros Hlo Hhi Hsrc.
  destruct (generate_rows (fun d src r => date r = strftime d /\ source r = src))
    with (start_date := start_date) (end_date := end_date)
         (sources := sources) (st := st) as (df & st' & Hrun & Hdf).
  { intros d src g. unfold row_draws.
    destruct (spend_draws _ _) as [[sp g3] ds]. cbn. auto. }
  exists df, st'. split; [exact Hrun |].
  replace (map (fun r => (date r, source r)) df)
    with (map (fun ds : day * string => (strftime (fst ds), snd ds))
              (list_prod (date_range start_date end_date) sources)).
  - apply NoDup_map_in.
    + intros [d1 s1] [d2 s2] Hin1 Hin2 Heq.
      apply pair_equal_spec in Heq as [Hd Hs]. cbn [fst snd] in Hd, Hs. subst s2.
      apply in_prod_iff in Hin1 as [Hin1 _], Hin2 as [Hin2 _].
      apply date_range_In in Hin1, Hin2.
      f_equal. apply strftime_inj; [lia | lia | exact Hd].
    + apply NoDup_list_prod; [apply date_range_NoDup | exact Hsrc].
  - clear Hrun. induction Hdf as [| ds r l k [Hd Hs] _ IH]; simpl.
    + reflexivity.
    + rewrite Hd, Hs, IH. reflexivity.
Qed.

End Generator.

Arguments Raised {rng A} e.
Arguments Returned {rng A} a st.
Arguments Build_np_state {rng} _ _.
Arguments np_rng {rng} _.
Arguments np_trace {rng} _.

(** *** A replayable instance of the samplers

    A counter stands for the generator state; each sampler returns a value
    near its mean, shifted by the counter, and steps the counter.  The
    instance meets the samplers' contract, so the properties above apply to
    it and the generator can be run on it. *)

(** The integer part of a non-negative finite float, [0] otherwise. *)
Definition float_floor (x : float) : Z :=
  match Prim2SF x with
  | S754_finite false m e => Z.shiftl (Zpos m) e
  | _ => 0
  end.

Definition replay_seed (s : Z) : Z := s.

Definition replay_poisson (lam : float) (g : Z) : Z * Z :=
  (Z.max 0 (float_floor lam + g mod 7 - 3), g + 1).

Definition replay_binomial (n : Z) (p : float) (g : Z) : Z * Z :=
  (Z.min n (Z.max 0 (float_floor (Z2float n * p) + g mod 3 - 1)), g + 1).

Definition replay_normal (loc scale : float) (g : Z) : float * Z :=
  ((loc + scale * Z2float (g mod 5 - 2))%float, g + 1).

Definition no_rounding (x : float) : float := x.

Definition replay_generate :=
  generate_marketing_data Z replay_seed replay_poisson replay_binomial
    replay_normal no_rounding.

Definition replay_gen_row :=
  gen_row Z replay_poisson replay_binomial replay_normal no_rounding.

Definition fresh : np_state Z := {| np_rng := 0; np_trace := [] |}.

(** 2024-09-01, a Sunday, and 2024-09-07, the Saturday after it. *)
Definition sep_01 : day := days_from_civil 2024 9 1.
Definition sep_07 : day := days_from_civil 2024 9 7.

Lemma replay_poisson_nonneg (lam : float) (g : Z) :
  (0 <=? lam)%float = true -> 0 <= fst (replay_poisson lam g).
Proof. intros _. unfold replay_poisson. simpl. lia. Qed.

Lemma replay_binomial_range (n : Z) (p : float) (g : Z) :
  0 <= n -> ((0 <=? p) && (p <=? 1))%float = true ->
  0 <= fst (replay_binomial n p g) <= n.
Proof. intros Hn _. unfold replay_binomial. simpl. lia. Qed.

Lemma no_rounding_nonneg (x : float) :
  (0 <? x)%float = true -> (0 <=? no_rounding x)%float = true.
Proof. apply ltb_leb. Qed.

Example weekday_sep_01 : weekday sep_01 = 6 /\ weekday sep_07 = 5.
Proof. split; reflexivity. Qed.

Example strftime_sep_01 : strftime sep_01 = "2024-09-01"%string.
Proof. reflexivity. Qed.

(** The scenario of the specification: seven days and five channels give 35
    records, and every Direct record has [spend = 0]. *)
Example replay_week :
  match replay_generate sep_01 sep_07 default_sources fresh with
  | Returned df _ =>
      length df = 35%nat
      /\ forallb (fun r => negb (String.eqb (source r) "Direct")
                           || match spend r with PyInt 0 => true | _ => false end)
                 df = true
  | Raised _ => False
  end.
Proof. vm_compute. split; reflexivity. Qed.

(** Without the call to [np.random.seed] the loop body depends on the state
    it is started in. *)
Example gen_row_depends_on_state :
  match replay_gen_row sep_01 "Email" fresh,
        replay_gen_row sep_01 "Email" {| np_rng := 1; np_trace := [] |} with
  | Returned r1 _, Returned r2 _ => sessions r1 <> sessions r2
  | _, _ => False
  end.
Proof. vm_compute. discriminate. Qed.

Lemma conversions_within_sessions_witness :
  (exists df st',
     replay_generate sep_01 sep_07 default_sources fresh = Returned df st'
     /\ Forall (fun r => 0 <= conversions r <= sessions r) df)
  /\ (forall d src st0, exists r st' g later,
        replay_gen_row d src st0 = Returned r st'
        /\ conversions r =
           fst (replay_binomial (sessions r) (avg_conv_rate (source_params src)) g)
        /\ np_trace st' =
           np_trace st0 ++
           DPoisson (Z2float (avg_sessions (source_params src)) * weekday_factor d)
           :: DBinomial (sessions r) (avg_conv_rate (source_params src))
           :: later).
Proof.
  exact (conversions_within_sessions Z replay_seed replay_poisson
           replay_binomial replay_normal no_rounding
           replay_poisson_nonneg replay_binomial_range
           sep_01 sep_07 default_sources fresh).
Defined.

Lemma generate_row_count_witness :
  (timestamp_first_day <= sep_01 /\ sep_07 <= timestamp_last_day
   /\ sep_01 <= sep_07)
  /\ exists df st',
       replay_generate sep_01 sep_07 default_sources fresh = Returned df st'
       /\ Z.of_nat (length df) =
          (sep_07 - sep_01 + 1) * Z.of_nat (length default_sources)
       /\ map (fun r => (date r, source r)) df =
          map (fun ds => (strftime (fst ds), snd ds))
              (list_prod (date_range sep_01 sep_07) default_sources).
Proof.
  assert (H : sep_01 <= sep_07) by (vm_compute; discriminate).
  assert (H1 : timestamp_first_day <= sep_01) by (vm_compute; discriminate).
  assert (H2 : sep_07 <= timestamp_last_day) by (vm_compute; discriminate).
  split; [auto |].
  exact (generate_row_count Z replay_seed replay_poisson replay_binomial
           replay_normal no_rounding replay_poisson_nonneg
           sep_01 sep_07 default_sources fresh H1 H2 H).
Defined.

Lemma spend_revenue_nonneg_witness :
  (exists df st',
     replay_generate sep_01 sep_07 default_sources fresh = Returned df st'
     /\ Forall (fun r => py_nonneg (spend r) /\ py_nonneg (revenue r)) df)
  /\ (forall x, py_gt0 x = false ->
        py_round2 no_rounding (py_max0 x) = PyInt 0).
Proof.
  exact (spend_revenue_nonneg Z replay_seed replay_poisson replay_binomial
           replay_normal no_rounding replay_poisson_nonneg no_rounding_nonneg
           sep_01 sep_07 default_sources fresh).
Defined.

Lemma poisson_mean_weekday_witness :
  (5 <= weekday sep_07 <-> weekday sep_07 = 5 \/ weekday sep_07 = 6)
  /\ exists r st' later,
       replay_gen_row sep_07 "Google Ads" fresh = Returned r st'
       /\ sessions r = fst (replay_poisson (1500 * 0.7)%float 0)
       /\ np_trace st' = [] ++ DPoisson (1500 * 0.7)%float :: later
       /\ (forall lam, ~ In (DPoisson lam) later).
Proof.
  exact (poisson_mean_weekday Z replay_poisson replay_binomial replay_normal
           no_rounding replay_poisson_nonneg sep_07 "Google Ads" fresh).
Defined.

Lemma unpaid_source_zero_spend_witness :
  (forall src, ~ paid src ->
     source_params src = direct
     /\ forall d st0, exists r st' n,
          replay_gen_row d src st0 = Returned r st'
          /\ spend r = PyInt 0
          /\ np_trace st' =
             np_trace st0 ++
             [DPoisson (2000 * weekday_factor d); DBinomial n 0.03;
              DNormal 80 24])
  /\ ~ paid "Direct"
  /\ exists df st',
       replay_generate sep_01 sep_07 default_sources fresh = Returned df st'
       /\ Forall (fun r => ~ paid (source r) -> spend r = PyInt 0) df.
Proof.
  exact (unpaid_source_zero_spend Z replay_seed replay_poisson replay_binomial
           replay_normal no_rounding replay_poisson_nonneg
           sep_01 sep_07 default_sources fresh).
Defined.

(** A Binomial stand-in that draws no success on every other call, so that
    a run has rows with and rows without conversions. *)
Definition sparse_binomial (n : Z) (p : float) (g : Z) : Z * Z :=
  (if Z.even g then 0 else Z.min n (Z.max 0 (float_floor (Z2float n * p))),
   g + 1).

Lemma sparse_binomial_range (n : Z) (p : float) (g : Z) :
  0 <= n -> ((0 <=? p) && (p <=? 1))%float = true ->
  0 <= fst (sparse_binomial n p g) <= n.
Proof.
  intros Hn _. unfold sparse_binomial. simpl. destruct (Z.even g); lia.
Qed.

Definition sparse_generate :=
  generate_marketing_data Z replay_seed replay_poisson sparse_binomial
    replay_normal no_rounding.

(** In the week generated with it, 15 of the 35 rows have no conversion
    (the rows of three of the days), and each of them has revenue 0. *)
Example sparse_week :
  match sparse_generate sep_01 sep_07 default_sources fresh with
  | Returned df _ =>
      length df = 35%nat
      /\ length (List.filter (fun r => conversions r =? 0) df) = 15%nat
      /\ forallb (fun r => negb (conversions r =? 0)
                           || match revenue r with PyInt 0 => true | _ => false end)
                 df = true
      /\ existsb (fun r => match revenue r with PyFloat _ => true | _ => false end)
                 df = true
  | Raised _ => False
  end.
Proof. vm_compute. repeat split; reflexivity. Qed.

Lemma zero_conversions_zero_revenue_witness :
  (exists df st',
     sparse_generate sep_01 sep_07 default_sources fresh = Returned df st'
     /\ Forall (fun r => conversions r = 0 -> revenue r = PyInt 0) df)
  /\ match sparse_generate sep_01 sep_07 default_sources fresh with
     | Returned df _ =>
         length (List.filter (fun r => conversions r =? 0) df) = 15%nat
     | Raised _ => False
     end.
Proof.
  split.
  - exact (zero_conversions_zero_revenue Z replay_seed replay_poisson
             sparse_binomial replay_normal no_rounding replay_poisson_nonneg
             sep_01 sep_07 default_sources fresh).
  - vm_compute. reflexivity.
Defined.

Lemma generate_empty_witness :
  (timestamp_first_day <= sep_07 <= timestamp_last_day
   /\ timestamp_first_day <= sep_01 <= timestamp_last_day
   /\ (sep_01 < sep_07 \/ default_sources = []))
  /\ replay_generate sep_07 sep_01 default_sources fresh =
     Returned [] {| np_rng := replay_seed 42; np_trace := [] |}.
Proof.
  assert (H' : sep_01 < sep_07 \/ default_sources = [])
    by (left; vm_compute; reflexivity).
  assert (H1 : timestamp_first_day <= sep_07 <= timestamp_last_day)
    by (vm_compute; split; discriminate).
  assert (H2 : timestamp_first_day <= sep_01 <= timestamp_last_day)
    by (vm_compute; split; discriminate).
  split; [auto |].
  exact (generate_empty Z replay_seed replay_poisson replay_binomial
           replay_normal no_rounding sep_07 sep_01 default_sources fresh
           H1 H2 H').
Defined.

Lemma generate_prefix_witness :
  (timestamp_first_day <= sep_01 <= timestamp_last_day
   /\ sep_07 <= timestamp_last_day /\ sep_01 <= sep_07)
  /\ exists df st1 more st2 draws,
       replay_generate sep_01 sep_01 default_sources fresh = Returned df st1
       /\ replay_generate sep_01 sep_07 default_sources fresh
          = Returned (df ++ more) st2
       /\ np_trace st2 = np_trace st1 ++ draws.
Proof.
  assert (H : sep_01 <= sep_07) by (vm_compute; discriminate).
  assert (H1 : timestamp_first_day <= sep_01 <= timestamp_last_day)
    by (vm_compute; split; discriminate).
  assert (H2 : sep_07 <= timestamp_last_day) by (vm_compute; discriminate).
  split; [auto |].
  exact (generate_prefix Z replay_seed replay_poisson replay_binomial
           replay_normal no_rounding replay_poisson_nonneg
           sep_01 sep_01 sep_07 default_sources fresh H1 (proj1 H1) H2 H).
Defined.

Lemma default_sources_NoDup : List.NoDup default_sources.
Proof.
  unfold default_sources.
  repeat (constructor; [simpl; intuition discriminate |]). constructor.
Qed.

Lemma date_source_key_witness :
  (timestamp_first_day <= sep_01 /\ sep_07 <= timestamp_last_day)
  /\ exists df st',
       replay_generate sep_01 sep_07 default_sources fresh = Returned df st'
       /\ List.NoDup (map (fun r => (date r, source r)) df).
Proof.
  assert (H1 : timestamp_first_day <= sep_01) by (vm_compute; discriminate).
  assert (H2 : sep_07 <= timestamp_last_day) by (vm_compute; discriminate).
  split; [split; assumption |].
  exact (date_source_key Z replay_seed replay_poisson replay_binomial
           replay_normal no_rounding replay_poisson_nonneg
           sep_01 sep_07 default_sources fresh H1 H2 default_sources_NoDup).
Defined.

End ExtractData.

(* ===================================================================== *)
(** ** The loader ([src/load_bigquery.py]) *)
(* ===================================================================== *)

Module LoadBigquery.

(** One line of the CSV file, as [pd.read_csv] types its columns. *)
Record csv_row : Type := {
  date : string;
  source : string;
  sessions : Z;
  conversions : Z;
  revenue : float;
  spend : float
}.

Definition dataframe : Type := list csv_row.

(** A dataset of the warehouse: its location and its tables by name. *)
Record dataset : Type := {
  location : string;
  tables : gmap string dataframe
}.

(** What the loader reads and writes outside the process: the files
    [pd.read_csv] can open, the process environment, and the datasets of the
    BigQuery service by (project, dataset id). *)
Record world : Type := {
  fs : gmap string dataframe;
  environ : gmap string string;
  bq : gmap (string * string) dataset
}.

Inductive exn : Type :=
| FileNotFoundError (path : string)
| ValueError (ref : string)
| NotFound (ref : string)
| Conflict (ref : string).

Inductive result (A : Type) : Type :=
| Raised (e : exn)
| Ok (a : A).
Arguments Raised {A} e.
Arguments Ok {A} a.

Inductive write_disposition : Type :=
| WRITE_TRUNCATE
| WRITE_APPEND
| WRITE_EMPTY.

Record LoadJobConfig : Type := {
  job_write_disposition : write_disposition;
  autodetect : bool
}.

(** [s.split(".")]. *)
Fixpoint split_dots (s : string) : list string :=
  match s with
  | EmptyString => [EmptyString]
  | String c s' =>
      if Ascii.eqb c "." then EmptyString :: split_dots s'
      else match split_dots s' with
           | [] => [String c EmptyString]
           | h :: t => String c h :: t
           end
  end.

(** The client resolves a dataset reference of one or two dot-separated
    parts, with its own project as the default. *)
Definition parse_dataset_ref (default_project ref : string)
  : result (string * string) :=
  match split_dots ref with
  | [d] => Ok (default_project, d)
  | [p; d] => Ok (p, d)
  | _ => Raised (ValueError ref)
  end.

(** A table reference has two or three parts. *)
Definition parse_table_ref (default_project ref : string)
  : result (string * string * string) :=
  match split_dots ref with
  | [d; t] => Ok (default_project, d, t)
  | [p; d; t] => Ok (p, d, t)
  | _ => Raised (ValueError ref)
  end.

(** [client.get_dataset(dataset_ref)]. *)
Definition get_dataset (project ref : string) (w : world) : result dataset :=
  match parse_dataset_ref project ref with
  | Raised e => Raised e
  | Ok key =>
      match bq w !! key with
      | Some ds => Ok ds
      | None => Raised (NotFound ref)
      end
  end.

(** [dataset = bigquery.Dataset(dataset_ref); dataset.location = loc;
    client.create_dataset(dataset)]. *)
Definition create_dataset (project ref loc : string) (w : world) : result world :=
  match parse_dataset_ref project ref with
  | Raised e => Raised e
  | Ok key =>
      match bq w !! key with
      | Some _ => Raised (Conflict ref)
      | None =>
          Ok {| fs := fs w; environ := environ w;
                bq := <[key := {| location := loc; tables := ∅ |}]> (bq w) |}
      end
  end.

(** The rows a load job leaves in a table that held [old]. *)
Definition write_rows (wd : write_disposition) (ref : string)
    (old : option dataframe) (df : dataframe) : result dataframe :=
  match wd with
  | WRITE_TRUNCATE => Ok df
  | WRITE_APPEND => Ok (default [] old ++ df)
  | WRITE_EMPTY =>
      match old with
      | None | Some [] => Ok df
      | Some (_ :: _) => Raised (Conflict ref)
      end
  end.

(** [client.load_table_from_dataframe(df, table_ref, job_config).result()]:
    the job runs to completion or raises; a failed job writes nothing. *)
Definition load_table_from_dataframe (project : string) (df : dataframe)
    (ref : string) (job_config : LoadJobConfig) (w : world) : result world :=
  match parse_table_ref project ref with
  | Raised e => Raised e
  | Ok (p, d, t) =>
      match bq w !! (p, d) with
      | None => Raised (NotFound ref)
      | Some ds =>
          match write_rows (job_write_disposition job_config) ref
                           (tables ds !! t) df with
          | Raised e => Raised e
          | Ok rows =>
              Ok {| fs := fs w; environ := environ w;
                    bq := <[(p, d) := {| location := location ds;
                                         tables := <[t := rows]> (tables ds) |}]>
                            (bq w) |}
          end
      end
  end.

(** [client.get_table(table_ref)], reduced to the rows of the table. *)
Definition get_table (project ref : string) (w : world) : result dataframe :=
  match parse_table_ref project ref with
  | Raised e => Raised e
  | Ok (p, d, t) =>
      match bq w !! (p, d) with
      | None => Raised (NotFound ref)
      | Some ds =>
          match tables ds !! t with
          | None => Raised (NotFound ref)
          | Some rows => Ok rows
          end
      end
  end.

(** [pd.read_csv(csv_path)]. *)
Definition read_csv (csv_path : string) (w : world) : result dataframe :=
  match fs w !! csv_path with
  | Some df => Ok df
  | None => Raised (FileNotFoundError csv_path)
  end.

(** [load_to_bigquery(csv_path, project_id, dataset_id, table_id,
    credentials_path)]; the [print]s are left out.  The failures that do
    not depend on the state modelled here (the client refusing the
    credentials at line 40, the service refusing an identifier, a
    permission or the connection) are not part of this function: it says
    what a load that returned has done, not that a load returns. *)
Definition load_to_bigquery
    (csv_path project_id dataset_id table_id credentials_path : string)
    (w : world) : result (string * world) :=
  let w := {| fs := fs w;
              environ := <["GOOGLE_APPLICATION_CREDENTIALS"%string :=
                             credentials_path]> (environ w);
              bq := bq w |} in
  let dataset_ref := (project_id +:+ "." +:+ dataset_id)%string in
  match (match get_dataset project_id dataset_ref w with
         | Ok _ => Ok w
         | Raised _ => create_dataset project_id dataset_ref "US" w
         end) with
  | Raised e => Raised e
  | Ok w =>
      match read_csv csv_path w with
      | Raised e => Raised e
      | Ok df =>
          let table_ref := (dataset_ref +:+ "." +:+ table_id)%string in
          let job_config := {| job_write_disposition := WRITE_TRUNCATE;
                               autodetect := true |} in
          match load_table_from_dataframe project_id df table_ref job_config w with
          | Raised e => Raised e
          | Ok w =>
              match get_table project_id table_ref w with
              | Raised e => Raised e
              | Ok _ => Ok (table_ref, w)
              end
          end
      end
  end.

(** *** Full replacement of the destination table *)

Lemma append_assoc (a b c : string) :
  ((a +:+ b) +:+ c = a +:+ (b +:+ c))%string.
Proof.
  induction a as [| x a IH]; [reflexivity |].
  change (String x ((a +:+ b) +:+ c) = String x (a +:+ (b +:+ c)))%string.
  f_equal. exact IH.
Qed.

(** A completed [WRITE_TRUNCATE] job leaves exactly the loaded rows in the
    table, whatever it held before. *)
Lemma load_truncate_get (project : string) (df : dataframe) (ref : string)
    (cfg : LoadJobConfig) (w w' : world) :
  job_write_disposition cfg = WRITE_TRUNCATE ->
  load_table_from_dataframe project df ref cfg w = Ok w' ->
  get_table project ref w' = Ok df.
Proof.
  unfold load_table_from_dataframe, get_table. intros Hwd.
  destruct (parse_table_ref project ref) as [e | [[p d] t]]; [discriminate |].
  destruct (bq w !! (p, d)) as [ds |]; [| discriminate].
  rewrite Hwd. simpl. intros [= <-]. simpl.
  rewrite lookup_insert_eq. simpl. rewrite lookup_insert_eq. reflexivity.
Qed.

Lemma ensure_dataset_fs (project ref : string) (w w' : world) :
  match get_dataset project ref w with
  | Ok _ => Ok w
  | Raised _ => create_dataset project ref "US" w
  end = Ok w' ->
  fs w' = fs w.
Proof.
  destruct (get_dataset project ref w); [| intros [= <-]; reflexivity].
  unfold create_dataset.
  destruct (parse_dataset_ref project ref) as [e' | key]; [discriminate |].
  destruct (bq w !! key); [discriminate |]. intros [= <-]. reflexivity.
Qed.

(** C8: after a successful load the destination table holds exactly the
    rows of the input dataset, for every input and every prior state of the
    warehouse. *)
Theorem load_replaces_table
    (csv_path project_id dataset_id table_id credentials_path : string)
    (w w' : world) (table_ref : string) :
  load_to_bigquery csv_path project_id dataset_id table_id credentials_path w
    = Ok (table_ref, w') ->
  exists df,
    fs w !! csv_path = Some df
    /\ get_table project_id table_ref w' = Ok df
    /\ table_ref = (project_id +:+ "." +:+ dataset_id +:+ "." +:+ table_id)%string.
Proof.
  unfold load_to_bigquery. cbv zeta.
  set (w0 := {| fs := fs w; environ := _; bq := bq w |}).
  set (dataset_ref := (project_id +:+ "." +:+ dataset_id)%string).
  destruct (match get_dataset project_id dataset_ref w0 with
            | Ok _ => Ok w0
            | Raised _ => create_dataset project_id dataset_ref "US" w0
            end) as [e | w1] eqn:Hds; [discriminate |].
  apply ensure_dataset_fs in Hds.
  unfold read_csv. rewrite Hds. simpl fs.
  destruct (fs w !! csv_path) as [df |]; [| discriminate].
  destruct (load_table_from_dataframe _ _ _ _ w1) as [e | w2] eqn:Hload;
    [discriminate |].
  apply load_truncate_get in Hload; [| reflexivity].
  rewrite Hload. intros [= <- <-]. exists df.
  split; [reflexivity |]. split; [exact Hload |].
  subst dataset_ref. rewrite !append_assoc. reflexivity.
Qed.

(** The other write dispositions keep prior rows or refuse the load. *)
Lemma write_rows_append_keeps (ref : string) (old df : dataframe) :
  write_rows WRITE_APPEND ref (Some old) df = Ok (old ++ df).
Proof. reflexivity. Qed.

(** *** The scenario of the specification: 35 rows over 1000 *)

Definition sample_row (n : Z) : csv_row :=
  {| date := "2024-09-01"; source := "Direct"; sessions := 2000 + n;
     conversions := 60; revenue := 4800; spend := 0 |}.

Definition rows_upto (n : nat) : dataframe :=
  map (fun i => sample_row (Z.of_nat i)) (seq 0 n).

Definition csv_file : string := "data/raw/marketing_data.csv".

(** A warehouse whose destination table already holds 1000 rows, and a
    35-row file to load. *)
Definition world_1000 : world :=
  {| fs := {[ csv_file := rows_upto 35 ]};
     environ := ∅;
     bq := {[ ("acme"%string, "marketing_raw"%string) :=
                {| location := "US";
                   tables := {[ "daily_performance"%string := rows_upto 1000 ]} |} ]} |}.

Definition load_1000 : result (string * world) :=
  load_to_bigquery csv_file "acme" "marketing_raw" "daily_performance"
    "credentials.json" world_1000.

Definition world_after : world :=
  match load_1000 with
  | Ok (_, w) => w
  | Raised _ => world_1000
  end.

Lemma load_1000_ok :
  load_1000 = Ok ("acme.marketing_raw.daily_performance"%string, world_after).
Proof. vm_compute. reflexivity. Qed.

Example table_before_1000 :
  option_map (@length csv_row)
    (match get_table "acme" "acme.marketing_raw.daily_performance" world_1000 with
     | Ok rows => Some rows | Raised _ => None end) = Some 1000%nat.
Proof. vm_compute. reflexivity. Qed.

Example table_after_35 :
  get_table "acme" "acme.marketing_raw.daily_performance" world_after
    = Ok (rows_upto 35).
Proof. vm_compute. reflexivity. Qed.

(** The loader creates a missing dataset in the US and then loads. *)
Example load_creates_dataset :
  match load_to_bigquery csv_file "acme" "fresh" "daily_performance"
          "credentials.json" world_1000 with
  | Ok (_, w) =>
      option_map location (bq w !! ("acme"%string, "fresh"%string)) = Some "US"%string
      /\ get_table "acme" "acme.fresh.daily_performance" w = Ok (rows_upto 35)
  | Raised _ => False
  end.
Proof. vm_compute. split; reflexivity. Qed.

Lemma load_replaces_table_witness :
  exists df,
    fs world_1000 !! csv_file = Some df
    /\ get_table "acme" "acme.marketing_raw.daily_performance" world_after = Ok df
    /\ "acme.marketing_raw.daily_performance"%string =
       ("acme" +:+ "." +:+ "marketing_raw" +:+ "." +:+ "daily_performance")%string.
Proof.
  exact (load_replaces_table csv_file "acme" "marketing_raw" "daily_performance"
           "credentials.json" world_1000 world_after
           "acme.marketing_raw.daily_performance" load_1000_ok).
Defined.

(** *** What a load changes and what it leaves alone *)


Definition CREDENTIALS : string := "GOOGLE_APPLICATION_CREDENTIALS".

(** The steps of a successful load, read back from its result. *)
Lemma load_inv
    (csv_path project_id dataset_id table_id credentials_path : string)
    (w w' : world) (table_ref : string) :
  load_to_bigquery csv_path project_id dataset_id table_id credentials_path w
    = Ok (table_ref, w') ->
  exists key0 p d t df ds bq1,
    parse_dataset_ref project_id (project_id +:+ "." +:+ dataset_id) = Ok key0
    /\ (bq1 = bq w /\ is_Some (bq w !! key0)
        \/ bq w !! key0 = None
           /\ bq1 = <[key0 := {| location := "US"; tables := ∅ |}]> (bq w))
    /\ fs w !! csv_path = Some df
    /\ table_ref = ((project_id +:+ "." +:+ dataset_id) +:+ "." +:+ table_id)%string
    /\ parse_table_ref project_id table_ref = Ok (p, d, t)
    /\ bq1 !! (p, d) = Some ds
    /\ w' = {| fs := fs w;
               environ := <[CREDENTIALS := credentials_path]> (environ w);
               bq := <[(p, d) := {| location := location ds;
                                    tables := <[t := df]> (tables ds) |}]> bq1 |}.
Proof.
  unfold load_to_bigquery. cbv zeta.
  set (w0 := {| fs := fs w; environ := _; bq := bq w |}).
  set (dataset_ref := (project_id +:+ "." +:+ dataset_id)%string).
  intros H.
  assert (Hens : exists key0 w1,
            match get_dataset project_id dataset_ref w0 with
            | Ok _ => Ok w0
            | Raised _ => create_dataset project_id dataset_ref "US" w0
            end = Ok w1
            /\ parse_dataset_ref project_id dataset_ref = Ok key0
            /\ fs w1 = fs w /\ environ w1 = environ w0
            /\ (bq w1 = bq w /\ is_Some (bq w !! key0)
                \/ bq w !! key0 = None
                   /\ bq w1 = <[key0 := {| location := "US"; tables := ∅ |}]> (bq w))).
  { revert H. unfold get_dataset, create_dataset.
    destruct (parse_dataset_ref project_id dataset_ref) as [e | key0];
      [discriminate |].
    simpl bq. destruct (bq w !! key0) as [ds0 |] eqn:Hlook; intros _.
    - exists key0, w0. do 4 (split; [reflexivity |]).
      left. split; [reflexivity | eauto].
    - eexists key0, _. do 4 (split; [reflexivity |]).
      right. split; [exact Hlook | reflexivity]. }
  destruct Hens as (key0 & w1 & Hens & Hparse & Hfs & Henv & Hbq).
  rewrite Hens in H. unfold read_csv in H. rewrite Hfs in H.
  destruct (fs w !! csv_path) as [df |]; [| discriminate].
  unfold load_table_from_dataframe, get_table in H.
  destruct (parse_table_ref project_id (dataset_ref +:+ "." +:+ table_id))
    as [e | [[p d] t]] eqn:Hptab; [discriminate |].
  destruct (bq w1 !! (p, d)) as [ds |] eqn:Hlook; [| discriminate].
  simpl in H. rewrite lookup_insert_eq in H. simpl in H.
  rewrite lookup_insert_eq in H. injection H as <- <-.
  exists key0, p, d, t, df, ds, (bq w1).
  rewrite Hfs, Henv. repeat split; auto.
Qed.


(** X5: after a successful load the destination dataset exists; a dataset
    that existed before the load keeps the location it had, and a dataset
    the load created is located in the US. *)
Theorem load_dataset_location
    (csv_path project_id dataset_id table_id credentials_path : string)
    (w w' : world) (table_ref : string) :
  load_to_bigquery csv_path project_id dataset_id table_id credentials_path w
    = Ok (table_ref, w') ->
  exists p d t ds',
    parse_table_ref project_id table_ref = Ok (p, d, t)
    /\ bq w' !! (p, d) = Some ds'
    /\ location ds' = match bq w !! (p, d) with
                      | Some ds => location ds
                      | None => "US"%string
                      end.
Proof.
  intros H.
  destruct (load_inv _ _ _ _ _ _ _ _ H)
    as (key0 & p & d & t & df & ds & bq1 & _ & Hbq1 & _ & _ & Hptab & Hlook & ->).
  exists p, d, t. eexists. split; [exact Hptab |]. simpl bq.
  rewrite lookup_insert_eq. split; [reflexivity |]. simpl.
  destruct Hbq1 as [[-> _] | [Hnone ->]].
  - rewrite Hlook. reflexivity.
  - destruct (decide (key0 = (p, d))) as [-> | Hk].
    + rewrite lookup_insert_eq in Hlook. injection Hlook as <-.
      rewrite Hnone. reflexivity.
    + rewrite lookup_insert_ne in Hlook by exact Hk. rewrite Hlook. reflexivity.
Qed.

(** X6: loading the same file again succeeds and leaves the world as the first
    load left it. *)
Theorem load_twice
    (csv_path project_id dataset_id table_id credentials_path : string)
    (w w' : world) (table_ref : string) :
  load_to_bigquery csv_path project_id dataset_id table_id credentials_path w
    = Ok (table_ref, w') ->
  load_to_bigquery csv_path project_id dataset_id table_id credentials_path w'
    = Ok (table_ref, w').
Proof.
  intros H.
  destruct (load_inv _ _ _ _ _ _ _ _ H)
    as (key0 & p & d & t & df & ds & bq1 & Hpds & Hbq1 & Hfile & -> & Hptab
        & Hlook & ->).
  unfold load_to_bigquery. cbv zeta. simpl fs. simpl environ. simpl bq.
  fold CREDENTIALS. rewrite insert_insert_eq.
  set (ds' := {| location := location ds; tables := <[t := df]> (tables ds) |}).
  set (w1 := {| fs := fs w; environ := _; bq := <[(p, d) := ds']> bq1 |}).
  assert (Hkey0 : is_Some (bq w1 !! key0)).
  { simpl. destruct (decide ((p, d) = key0)) as [<- | Hk].
    - rewrite lookup_insert_eq. eauto.
    - rewrite lookup_insert_ne by exact Hk.
      destruct Hbq1 as [[-> Hsome] | [_ ->]]; [exact Hsome |].
      rewrite lookup_insert_eq. eauto. }
  unfold get_dataset at 1. rewrite Hpds.
  destruct Hkey0 as [ds0 Hds0]. rewrite Hds0.
  unfold read_csv. simpl fs. rewrite Hfile.
  unfold load_table_from_dataframe. rewrite Hptab. simpl bq.
  rewrite lookup_insert_eq. simpl.
  unfold get_table. rewrite Hptab. simpl bq.
  rewrite lookup_insert_eq. simpl. rewrite lookup_insert_eq.
  rewrite !insert_insert_eq. reflexivity.
Qed.


Lemma load_dataset_location_witness :
  exists p d t ds',
    parse_table_ref "acme" "acme.marketing_raw.daily_performance" = Ok (p, d, t)
    /\ bq world_after !! (p, d) = Some ds'
    /\ location ds' = match bq world_1000 !! (p, d) with
                      | Some ds => location ds
                      | None => "US"%string
                      end.
Proof.
  exact (load_dataset_location csv_file "acme" "marketing_raw"
           "daily_performance" "credentials.json" world_1000 world_after
           "acme.marketing_raw.daily_performance" load_1000_ok).
Defined.

Lemma load_twice_witness :
  load_to_bigquery csv_file "acme" "marketing_raw" "daily_performance"
    "credentials.json" world_after
  = Ok ("acme.marketing_raw.daily_performance"%string, world_after).
Proof.
  exact (load_twice csv_file "acme" "marketing_raw" "daily_performance"
           "credentials.json" world_1000 world_after
           "acme.marketing_raw.daily_performance" load_1000_ok).
Defined.

End LoadBigquery.

(* ===================================================================== *)
(** ** The dashboard ([src/dashboard.py]) *)
(* ===================================================================== *)

Module Dashboard.
Import Py Calendar.

(** One row of the query result. *)
Record mrow : Type := {
  date : day;
  marketing_source : string;
  spend : float;
  sessions : Z;
  conversions : Z;
  revenue : float
}.

Definition dataframe : Type := list mrow.

(** *** Column helpers *)

(** [Series.sum()] and the grouped sum of a float column: NaN entries are
    skipped.  pandas fixes no summation order in its contract; the terms are
    added left to right here, so the last bits of a long sum may differ from
    the ones pandas computes. *)
Definition fsum (xs : list float) : float :=
  fold_left PrimFloat.add (List.filter (fun x => negb (is_nan x)) xs) 0%float.

(** The value an int64 holds after an overflow: [z] modulo [2^64], taken
    between [-2^63] and [2^63 - 1]. *)
Definition wrap64 (z : Z) : Z := (z + 2 ^ 63) mod 2 ^ 64 - 2 ^ 63.

(** The sum of a list of integers. *)
Definition zsum (xs : list Z) : Z := fold_left Z.add xs 0.

(** [Series.sum()] and the grouped sum of an int64 column: numpy adds
    int64 values with silent wrap-around. *)
Definition isum (xs : list Z) : Z := wrap64 (zsum xs).

Fixpoint insert_by {A} (le : A -> A -> bool) (x : A) (l : list A) : list A :=
  match l with
  | [] => [x]
  | y :: l' => if le x y then x :: y :: l' else y :: insert_by le x l'
  end.

(** A stable sort by the order [le]. *)
Definition sort_by {A} (le : A -> A -> bool) (l : list A) : list A :=
  fold_right (insert_by le) [] l.

(** Drop adjacent repetitions of a sorted list. *)
Fixpoint dedup {A} (eqb : A -> A -> bool) (l : list A) : list A :=
  match l with
  | [] => []
  | x :: l' =>
      match l' with
      | y :: _ => if eqb x y then dedup eqb l' else x :: dedup eqb l'
      | [] => [x]
      end
  end.

(** The group keys of [df.groupby(col)], which pandas sorts. *)
Definition source_keys (df : dataframe) : list string :=
  dedup String.eqb (sort_by String.leb (map marketing_source df)).

Definition date_keys (df : dataframe) : list day :=
  dedup Z.eqb (sort_by Z.leb (map date df)).

Definition rows_of_source (df : dataframe) (k : string) : dataframe :=
  List.filter (fun r => String.eqb (marketing_source r) k) df.

Definition rows_of_date (df : dataframe) (k : day) : dataframe :=
  List.filter (fun r => Z.eqb (date r) k) df.

(** [sort_values(col, ascending=True)] on a float column: NaN goes last. *)
Definition float_le_nan_last (a b : float) : bool :=
  if is_nan b then true else if is_nan a then false else (a <=? b)%float.

(** *** [display_kpis] *)

Record kpis : Type := {
  total_spend : float;
  total_revenue : float;
  total_conversions : Z;
  total_sessions : Z;
  avg_roas : pynum;
  avg_roi : pynum;
  conversion_rate : pynum
}.

Definition display_kpis (df : dataframe) : kpis :=
  let total_spend := fsum (map spend df) in
  let total_revenue := fsum (map revenue df) in
  let total_conversions := isum (map conversions df) in
  let total_sessions := isum (map sessions df) in
  {| total_spend := total_spend;
     total_revenue := total_revenue;
     total_conversions := total_conversions;
     total_sessions := total_sessions;
     avg_roas := if (0 <? total_spend)%float
                 then PyFloat (total_revenue / total_spend)
                 else PyInt 0;
     avg_roi := if (0 <? total_spend)%float
                then PyFloat ((total_revenue - total_spend) / total_spend * 100)
                else PyInt 0;
     conversion_rate := if 0 <? total_sessions
                        then PyFloat (Z2float total_conversions
                                      / Z2float total_sessions * 100)
                        else PyInt 0 |}.

(** *** The charts *)

(** The data each figure plots (titles, layout and the text labels, which
    render the plotted numbers, are left out). *)
Inductive figure : Type :=
| DailyTrend (dates : list day) (spend revenue : list float)
| ChannelPerformance (sources : list string) (spend revenue : list float)
| RoasBySource (sources : list string) (roas : list float)
               (colors : list string) (target : float)
| Funnel (sessions conversions : Z).

Definition plot_daily_trend (df : dataframe) : figure :=
  let daily_agg :=
    map (fun k => let g := rows_of_date df k in
                  (k, fsum (map spend g), fsum (map revenue g),
                   isum (map conversions g)))
        (date_keys df) in
  DailyTrend (map (fun a => fst (fst (fst a))) daily_agg)
             (map (fun a => snd (fst (fst a))) daily_agg)
             (map (fun a => snd (fst a)) daily_agg).

(** One row of [source_agg] in [plot_channel_performance]. *)
Record channel_agg : Type := {
  ca_source : string;
  ca_spend : float;
  ca_revenue : float;
  ca_conversions : Z;
  ca_sessions : Z;
  ca_roas : float
}.

(** Lines 225-233: group, sum, divide, sort by revenue. *)
Definition channel_source_agg (df : dataframe) : list channel_agg :=
  let source_agg :=
    map (fun k => let g := rows_of_source df k in
                  (k, fsum (map spend g), fsum (map revenue g),
                   isum (map conversions g), isum (map sessions g)))
        (source_keys df) in
  let source_agg :=
    map (fun '(k, sp, rev, conv, sess) =>
           {| ca_source := k; ca_spend := sp; ca_revenue := rev;
              ca_conversions := conv; ca_sessions := sess;
              ca_roas := (rev / sp)%float |}) source_agg in
  sort_by (fun a b => float_le_nan_last (ca_revenue a) (ca_revenue b)) source_agg.

Definition plot_channel_performance (df : dataframe) : figure :=
  let source_agg := channel_source_agg df in
  ChannelPerformance (map ca_source source_agg)
                     (map ca_spend source_agg)
                     (map ca_revenue source_agg).

(** One row of [source_agg] in [plot_roas_by_source]. *)
Record roas_agg : Type := {
  ra_source : string;
  ra_spend : float;
  ra_revenue : float;
  ra_roas : float
}.

(** Lines 278-284: group, sum, divide, sort by ROAS. *)
Definition roas_source_agg (df : dataframe) : list roas_agg :=
  let source_agg :=
    map (fun k => let g := rows_of_source df k in
                  (k, fsum (map spend g), fsum (map revenue g)))
        (source_keys df) in
  let source_agg :=
    map (fun '(k, sp, rev) =>
           {| ra_source := k; ra_spend := sp; ra_revenue := rev;
              ra_roas := (rev / sp)%float |}) source_agg in
  sort_by (fun a b => float_le_nan_last (ra_roas a) (ra_roas b)) source_agg.

(** Lines 287-288. *)
Definition roas_color (x : float) : string :=
  if (x <? 1)%float then "#FF6B6B"
  else if (x <? 2)%float then "#FFD93D"
  else "#6BCF7F".

Definition plot_roas_by_source (df : dataframe) : figure :=
  let source_agg := roas_source_agg df in
  let colors := map (fun a => roas_color (ra_roas a)) source_agg in
  RoasBySource (map ra_source source_agg) (map ra_roas source_agg) colors 2.0.

Definition plot_conversion_funnel (df : dataframe) : figure :=
  Funnel (isum (map sessions df)) (isum (map conversions df)).

(** *** Loading the data and the page *)

(** The two Streamlit caches only memoise [get_bigquery_client] and
    [load_marketing_data]; they are left out. *)

(** The outcome of [_client.query(...).to_dataframe()]. *)
Inductive query_result : Type :=
| QueryFailed (e : string)
| QueryRows (rows : dataframe).

(** A BigQuery client, as far as the dashboard uses it: the parameterized
    query of [load_marketing_data] run for a start and an end date. *)
Record bq_client : Type := {
  run_query : day -> day -> query_result
}.

(** The query itself, over the rows of the warehouse table: the rows dated
    within the two bounds, latest first. *)
Definition select_range (table : dataframe) (start_date end_date : day)
  : dataframe :=
  sort_by (fun a b => date b <=? date a)
          (List.filter (fun r => (start_date <=? date r) && (date r <=? end_date)) table).

Definition warehouse_client (table : dataframe) : bq_client :=
  {| run_query := fun s e => QueryRows (select_range table s e) |}.

(** What the page shows, in order. *)
Inductive ui : Type :=
| Title (s : string)
| Markdown (s : string)
| Subheader (s : string)
| SidebarHeader (s : string)
| SidebarSuccess (s : string)
| SidebarInfo (s : string)
| SidebarMarkdown (s : string)
| SidebarMetric (label : string) (n : Z)
| Error (msg : string)
| Warning (msg : string)
| Kpis (k : kpis)
| PlotlyChart (f : figure)
| DataTable (rows : dataframe).

(** How [get_bigquery_client] finds its credentials. *)
Inductive connection : Type :=
| StreamlitCloud (c : bq_client)
| Local (c : bq_client)
| Failed (e : string).

(** [get_bigquery_client()]: the client, or [None] after an error message. *)
Definition get_bigquery_client (conn : connection) : option bq_client * list ui :=
  match conn with
  | StreamlitCloud c => (Some c, [SidebarSuccess "Running on Streamlit Cloud"])
  | Local c => (Some c, [SidebarInfo "Running locally"])
  | Failed e => (None, [Error ("Error connecting to BigQuery: " +:+ e)])
  end.

(** [load_marketing_data(_client, start_date, end_date)]: an exception of
    the query is caught and shown, and an empty DataFrame returned. *)
Definition load_marketing_data (client : option bq_client)
    (start_date end_date : day) : dataframe * list ui :=
  match client with
  | None => ([], [])
  | Some c =>
      match run_query c start_date end_date with
      | QueryRows rows => (rows, [])
      | QueryFailed e => ([], [Error ("Error loading data: " +:+ e)])
      end
  end.

(** [df.empty]. *)
Definition df_empty (df : dataframe) : bool :=
  match df with [] => true | _ :: _ => false end.

(** [main()], for the two dates of the date inputs, the index of the
    entry picked in the source selector and the clock reading of the
    footer.  Emoji of the labels are left out. *)
Definition main (conn : connection) (start_date end_date : day)
    (selected : nat) (now : string) : list ui :=
  [Title "Marketing Analytics Dashboard";
   Markdown "Real-time insights from your marketing campaigns";
   SidebarHeader "Filters"] ++
  let '(client, shown) := get_bigquery_client conn in
  shown ++
  match client with
  | None =>
      [Error "Unable to connect to BigQuery. Please check your credentials."]
  | Some c =>
      let '(df, shown) := load_marketing_data (Some c) start_date end_date in
      shown ++
      if df_empty df then
        [Warning "No data available for the selected date range."]
      else
        let sources := "All"%string :: source_keys df in
        let selected_source := nth selected sources "All"%string in
        let summary :=
          [SidebarMarkdown "---"; SidebarMarkdown "### Summary Stats";
           SidebarMetric "Total Records" (Z.of_nat (length df));
           SidebarMetric "Date Range" (Z.of_nat (length (date_keys df)));
           SidebarMetric "Sources" (Z.of_nat (length (source_keys df)))] in
        let df := if negb (String.eqb selected_source "All")
                  then rows_of_source df selected_source else df in
        summary ++
        [Markdown "---"; Subheader "Key Performance Indicators";
         Kpis (display_kpis df);
         Markdown "---";
         PlotlyChart (plot_daily_trend df);
         PlotlyChart (plot_roas_by_source df);
         PlotlyChart (plot_channel_performance df);
         PlotlyChart (plot_conversion_funnel df);
         Markdown "---"; Subheader "Raw Data";
         DataTable (sort_by (fun a b => date b <=? date a) df);
         Markdown "---";
         Markdown ("Last updated: " +:+ now)]
  end.

(** *** Per-channel ROAS of a channel without spend *)

Lemma In_insert_by {A} (le : A -> A -> bool) (x y : A) (l : list A) :
  In y (insert_by le x l) <-> y = x \/ In y l.
Proof.
  induction l as [| z l IH]; simpl.
  - intuition.
  - destruct (le x z); simpl; rewrite ?IH; intuition.
Qed.

Lemma In_sort_by {A} (le : A -> A -> bool) (y : A) (l : list A) :
  In y (sort_by le l) <-> In y l.
Proof.
  induction l as [| x l IH]; simpl; [reflexivity |].
  rewrite In_insert_by, IH. intuition.
Qed.

Lemma Prim2SF_zero : Prim2SF 0 = S754_zero false.
Proof. reflexivity. Qed.

Lemma is_zero_spec (s : float) :
  is_zero s = true -> exists b, Prim2SF s = S754_zero b.
Proof.
  unfold is_zero. rewrite FloatAxioms.eqb_spec.
  change (Prim2SF PrimFloat.zero) with (S754_zero false).
  destruct (Prim2SF s) as [b | b | | b m e]; simpl;
    try discriminate; eauto; destruct b; discriminate.
Qed.

(** A binary64 division by zero gives an infinity or a NaN; it raises
    nothing and it is never [0]. *)
Lemma div_by_zero (r s : float) :
  is_zero s = true ->
  (r / s =? 0)%float = false /\ is_finite (r / s) = false.
Proof.
  intros Hz. destruct (is_zero_spec s Hz) as [b Hs].
  unfold is_finite, is_nan, is_infinity.
  rewrite !FloatAxioms.eqb_spec, abs_spec, div_spec, Hs, Prim2SF_zero.
  change (Prim2SF infinity) with (S754_infinity false).
  destruct b, (Prim2SF r) as [[] | [] | | [] m e]; split; reflexivity.
Qed.

(** Every row of the ROAS chart carries the sums over the rows of its
    channel and their quotient; when the summed spend is zero the quotient
    is an infinity or a NaN, not [0]. *)
Lemma roas_source_agg_zero_spend (df : dataframe) (a : roas_agg) :
  In a (roas_source_agg df) ->
  ra_spend a = fsum (map spend (rows_of_source df (ra_source a)))
  /\ ra_revenue a = fsum (map revenue (rows_of_source df (ra_source a)))
  /\ ra_roas a = (ra_revenue a / ra_spend a)%float
  /\ (is_zero (ra_spend a) = true ->
      (ra_roas a =? 0)%float = false /\ is_finite (ra_roas a) = false).
Proof.
  unfold roas_source_agg. rewrite In_sort_by, map_map, in_map_iff.
  intros (k & <- & _). simpl. repeat split; apply div_by_zero; assumption.
Qed.

Lemma channel_source_agg_zero_spend (df : dataframe) (a : channel_agg) :
  In a (channel_source_agg df) ->
  ca_spend a = fsum (map spend (rows_of_source df (ca_source a)))
  /\ ca_roas a = (ca_revenue a / ca_spend a)%float
  /\ (is_zero (ca_spend a) = true ->
      (ca_roas a =? 0)%float = false /\ is_finite (ca_roas a) = false).
Proof.
  unfold channel_source_agg. rewrite In_sort_by, map_map, in_map_iff.
  intros (k & <- & _). simpl. repeat split; apply div_by_zero; assumption.
Qed.

(** A day of two channels, as the generator produces them: Direct has no
    spend. *)
Definition sep_01 : day := days_from_civil 2024 9 1.

Definition two_channels : dataframe :=
  [ {| date := sep_01; marketing_source := "Google Ads"; spend := 3000;
       sessions := 1050; conversions := 50; revenue := 7500 |};
    {| date := sep_01; marketing_source := "Direct"; spend := 0;
       sessions := 1400; conversions := 60; revenue := 4800 |} ].

(** C1, on the code: for the Direct channel, whose total spend is 0, both
    per-channel breakdowns compute a ROAS of [infinity] (a NaN when the
    revenue is 0 as well), and the ROAS chart plots it in the colour of the
    top band; nothing is raised.  The KPI row, on the same rows of the
    channel, reports 0. *)
Theorem zero_spend_channel_roas_infinite :
  plot_roas_by_source two_channels =
    RoasBySource ["Google Ads"; "Direct"]%string [2.5; infinity]%float
                 ["#6BCF7F"; "#6BCF7F"]%string 2
  /\ map (fun a => (ca_source a, ca_roas a)) (channel_source_agg two_channels) =
     [("Direct"%string, infinity); ("Google Ads"%string, 2.5%float)]
  /\ avg_roas (display_kpis (rows_of_source two_channels "Direct")) = PyInt 0
  /\ plot_roas_by_source
       [ {| date := sep_01; marketing_source := "Direct"; spend := 0;
            sessions := 3; conversions := 0; revenue := 0 |} ] =
     RoasBySource ["Direct"%string] [nan] ["#6BCF7F"%string] 2.
Proof. repeat split; vm_compute; reflexivity. Qed.

(** *** An empty query result *)

Lemma select_range_no_match (table : dataframe) (start_date end_date : day) :
  (forall r, In r table -> date r < start_date \/ end_date < date r) ->
  select_range table start_date end_date = [].
Proof.
  intros H. unfold select_range.
  replace (List.filter _ table) with (@nil mrow); [reflexivity |].
  symmetry. induction table as [| r table IH]; [reflexivity |]. simpl.
  destruct (H r (or_introl eq_refl)) as [Hlt | Hlt].
  - destruct (Z.leb_spec start_date (date r)); [lia |]. simpl.
    apply IH. intros r' Hr'. apply H. right. exact Hr'.
  - destruct (Z.leb_spec (date r) end_date); [lia |].
    rewrite andb_false_r. apply IH. intros r' Hr'. apply H. right. exact Hr'.
Qed.

(** C9: when the client is connected and the query returns no row, the page
    ends with the warning that no data is available; it shows no error and
    no chart, and [main] returns. *)
Theorem empty_result_no_data (conn : connection) (c : bq_client)
    (start_date end_date : day) (selected : nat) (now : string) :
  fst (get_bigquery_client conn) = Some c ->
  run_query c start_date end_date = QueryRows [] ->
  main conn start_date end_date selected now =
    [Title "Marketing Analytics Dashboard";
     Markdown "Real-time insights from your marketing campaigns";
     SidebarHeader "Filters"] ++
    snd (get_bigquery_client conn) ++
    [Warning "No data available for the selected date range."]
  /\ (forall msg, ~ In (Error msg) (main conn start_date end_date selected now))
  /\ (forall f, ~ In (PlotlyChart f) (main conn start_date end_date selected now)).
Proof.
  intros Hc Hq.
  assert (Hmain : main conn start_date end_date selected now =
    [Title "Marketing Analytics Dashboard";
     Markdown "Real-time insights from your marketing campaigns";
     SidebarHeader "Filters"] ++
    snd (get_bigquery_client conn) ++
    [Warning "No data available for the selected date range."]).
  { unfold main. destruct (get_bigquery_client conn) as [client shown].
    simpl in Hc. subst client. unfold load_marketing_data. rewrite Hq.
    reflexivity. }
  rewrite Hmain. split; [reflexivity |].
  destruct conn as [c' | c' | e]; simpl in *; [| | discriminate];
    split; intros x Hin;
    repeat (destruct Hin as [Hin | Hin]; [discriminate |]); exact Hin.
Qed.

(** A warehouse table filled for September 2024, queried for January 2025. *)
Definition jan_01 : day := days_from_civil 2025 1 1.
Definition jan_31 : day := days_from_civil 2025 1 31.

Example no_rows_in_january :
  run_query (warehouse_client two_channels) jan_01 jan_31 = QueryRows [].
Proof. reflexivity. Qed.

(** The same table queried for September: the page shows the charts. *)
Example september_page_has_charts :
  In (PlotlyChart (plot_roas_by_source two_channels))
     (main (Local (warehouse_client two_channels)) sep_01 sep_01 0 "now").
Proof. vm_compute. auto 20. Qed.

(** A query that raises is shown as an error before the warning. *)
Example failed_query_shows_error :
  main (Local {| run_query := fun _ _ => QueryFailed "timeout" |})
       jan_01 jan_31 0 "now" =
  [Title "Marketing Analytics Dashboard";
   Markdown "Real-time insights from your marketing campaigns";
   SidebarHeader "Filters"; SidebarInfo "Running locally";
   Error "Error loading data: timeout";
   Warning "No data available for the selected date range."].
Proof. reflexivity. Qed.

Lemma empty_result_no_data_witness :
  main (Local (warehouse_client two_channels)) jan_01 jan_31 0 "now" =
    [Title "Marketing Analytics Dashboard";
     Markdown "Real-time insights from your marketing campaigns";
     SidebarHeader "Filters"] ++
    snd (get_bigquery_client (Local (warehouse_client two_channels))) ++
    [Warning "No data available for the selected date range."]
  /\ (forall msg, ~ In (Error msg)
        (main (Local (warehouse_client two_channels)) jan_01 jan_31 0 "now"))
  /\ (forall f, ~ In (PlotlyChart f)
        (main (Local (warehouse_client two_channels)) jan_01 jan_31 0 "now")).
Proof.
  exact (empty_result_no_data (Local (warehouse_client two_channels))
           (warehouse_client two_channels) jan_01 jan_31 0 "now"
           eq_refl no_rows_in_january).
Defined.

(** *** Orders used by the sorts *)

(** The comparison of binary64 numbers is transitive and, away from NaN,
    total. *)
Ltac sf_cases :=
  repeat match goal with
         | |- context [Z.compare ?a ?b] => destruct (Z.compare_spec a b)
         | |- context [Pos.compare_cont Eq ?a ?b] =>
             change (Pos.compare_cont Eq a b) with (Pos.compare a b);
             destruct (Pos.compare_spec a b)
         end;
  simpl; intros; try reflexivity; try discriminate; try lia.

Lemma SFleb_trans (x y z : spec_float) :
  SFleb x y = true -> SFleb y z = true -> SFleb x z = true.
Proof.
  unfold SFleb, SFcompare.
  destruct x as [[] | [] | | [] mx ex], y as [[] | [] | | [] my ey],
           z as [[] | [] | | [] mz ez];
    try (intros; reflexivity); try (intros; discriminate); sf_cases.
Qed.

Lemma SFleb_total (x y : spec_float) :
  x <> S754_nan -> y <> S754_nan -> SFleb x y = true \/ SFleb y x = true.
Proof.
  unfold SFleb, SFcompare.
  destruct x as [[] | [] | | [] mx ex], y as [[] | [] | | [] my ey];
    intros Hx Hy; try congruence; try (left; reflexivity);
    try (right; reflexivity);
    destruct (Z.compare_spec ex ey); destruct (Z.compare_spec ey ex);
    change (Pos.compare_cont Eq mx my) with (Pos.compare mx my);
    change (Pos.compare_cont Eq my mx) with (Pos.compare my mx);
    destruct (Pos.compare_spec mx my); destruct (Pos.compare_spec my mx);
    simpl; auto; lia.
Qed.

Lemma SFleb_not_ltb (x y : spec_float) :
  SFleb x y = true -> SFltb y x = false.
Proof.
  unfold SFleb, SFltb, SFcompare.
  destruct x as [[] | [] | | [] mx ex], y as [[] | [] | | [] my ey];
    try (intros; reflexivity); try (intros; discriminate);
    destruct (Z.compare_spec ex ey); destruct (Z.compare_spec ey ex);
    change (Pos.compare_cont Eq mx my) with (Pos.compare mx my);
    change (Pos.compare_cont Eq my mx) with (Pos.compare my mx);
    destruct (Pos.compare_spec mx my); destruct (Pos.compare_spec my mx);
    simpl; intros; try reflexivity; try discriminate; lia.
Qed.

Lemma is_nan_spec (x : float) :
  is_nan x = match Prim2SF x with S754_nan => true | _ => false end.
Proof.
  unfold is_nan. rewrite FloatAxioms.eqb_spec. unfold SFeqb, SFcompare.
  destruct (Prim2SF x) as [[] | [] | | [] m e]; try reflexivity;
    rewrite Z.compare_refl;
    change (Pos.compare_cont Eq m m) with (Pos.compare m m);
    rewrite Pos.compare_refl; reflexivity.
Qed.

Lemma float_le_nan_last_total (a b : float) :
  float_le_nan_last a b = true \/ float_le_nan_last b a = true.
Proof.
  unfold float_le_nan_last. rewrite !is_nan_spec, !leb_spec.
  destruct (Prim2SF a) eqn:Ha, (Prim2SF b) eqn:Hb; auto;
    apply SFleb_total; discriminate.
Qed.

Lemma float_le_nan_last_trans (a b c : float) :
  float_le_nan_last a b = true -> float_le_nan_last b c = true ->
  float_le_nan_last a c = true.
Proof.
  unfold float_le_nan_last. rewrite !is_nan_spec, !leb_spec.
  destruct (Prim2SF a) eqn:Ha, (Prim2SF b) eqn:Hb, (Prim2SF c) eqn:Hc;
    try reflexivity; try discriminate; apply SFleb_trans.
Qed.

(** The lexicographic order of strings is transitive. *)
Lemma string_compare_trans (c : comparison) (s1 s2 s3 : string) :
  String.compare s1 s2 = c -> String.compare s2 s3 = c ->
  String.compare s1 s3 = c.
Proof.
  revert s2 s3. induction s1 as [| a1 s1 IH]; intros [| a2 s2] [| a3 s3];
    simpl; try congruence.
  unfold Ascii.compare.
  destruct (N.compare_spec (N_of_ascii a1) (N_of_ascii a2)) as [H12 | H12 | H12];
    destruct (N.compare_spec (N_of_ascii a2) (N_of_ascii a3)) as [H23 | H23 | H23];
    destruct (N.compare_spec (N_of_ascii a1) (N_of_ascii a3)) as [H13 | H13 | H13];
    try congruence; try lia; try (intros; subst; discriminate);
    try apply IH.
Qed.

Lemma string_leb_trans (s1 s2 s3 : string) :
  String.leb s1 s2 = true -> String.leb s2 s3 = true -> String.leb s1 s3 = true.
Proof.
  unfold String.leb.
  destruct (String.compare s1 s2) eqn:H12; try discriminate;
    destruct (String.compare s2 s3) eqn:H23; try discriminate; intros _ _.
  - apply String.compare_eq_iff in H12, H23. subst.
    destruct (String.compare s3 s3) eqn:H; try reflexivity.
    pose proof (String.compare_antisym s3 s3) as Ha. rewrite H in Ha.
    discriminate.
  - apply String.compare_eq_iff in H12. subst. rewrite H23. reflexivity.
  - apply String.compare_eq_iff in H23. subst. rewrite H12. reflexivity.
  - rewrite (string_compare_trans Lt s1 s2 s3 H12 H23). reflexivity.
Qed.

(** *** Sorting and grouping *)

Section SortFacts.
Context {A : Type} (le : A -> A -> bool).

Lemma sort_by_perm (l : list A) : Permutation (sort_by le l) l.
Proof.
  induction l as [| x l IH]; simpl; [constructor |].
  transitivity (x :: sort_by le l); [| constructor; exact IH].
  generalize (sort_by le l). clear. intros l.
  induction l as [| y l IH]; simpl; [reflexivity |].
  destruct (le x y); [reflexivity |].
  transitivity (y :: x :: l); [constructor; exact IH | apply perm_swap].
Qed.

Hypothesis le_total : forall x y, le x y = true \/ le y x = true.
Hypothesis le_trans :
  forall x y z, le x y = true -> le y z = true -> le x z = true.

Lemma insert_by_sorted (x : A) (l : list A) :
  StronglySorted (fun a b => le a b = true) l ->
  StronglySorted (fun a b => le a b = true) (insert_by le x l).
Proof.
  induction 1 as [| y l Hl IH Hy]; simpl.
  - repeat constructor.
  - destruct (le x y) eqn:Hxy.
    + constructor; [constructor; assumption |].
      constructor; [exact Hxy |].
      rewrite List.Forall_forall in *. intros z Hz. eauto.
    + constructor; [exact IH |].
      rewrite List.Forall_forall in *. intros z Hz.
      apply In_insert_by in Hz as [-> | Hz]; [| auto].
      destruct (le_total x y) as [H | H]; [congruence | exact H].
Qed.

Lemma sort_by_sorted (l : list A) :
  StronglySorted (fun a b => le a b = true) (sort_by le l).
Proof.
  induction l as [| x l IH]; simpl; [constructor |].
  apply insert_by_sorted, IH.
Qed.

Variable eqb : A -> A -> bool.
Hypothesis eqb_spec : forall x y, reflect (x = y) (eqb x y).
Hypothesis le_antisym : forall x y, le x y = true -> le y x = true -> x = y.

Lemma In_dedup (x : A) (l : list A) : In x (dedup eqb l) <-> In x l.
Proof.
  induction l as [| y l IH]; [reflexivity |].
  destruct l as [| z l]; [reflexivity |].
  change (dedup eqb (y :: z :: l))
    with (if eqb y z then dedup eqb (z :: l) else y :: dedup eqb (z :: l)).
  destruct (eqb_spec y z) as [-> | Hne].
  - rewrite IH. simpl. tauto.
  - simpl In at 1. rewrite IH. simpl. tauto.
Qed.

(** Removing adjacent repetitions from a sorted list leaves a strictly
    sorted list. *)
Lemma dedup_sorted (l : list A) :
  StronglySorted (fun a b => le a b = true) l ->
  StronglySorted (fun a b => le a b = true /\ a <> b) (dedup eqb l).
Proof.
  induction 1 as [| y l Hl IH Hy]; [constructor |].
  destruct l as [| z l]; [repeat constructor |].
  change (dedup eqb (y :: z :: l))
    with (if eqb y z then dedup eqb (z :: l) else y :: dedup eqb (z :: l)).
  destruct (eqb_spec y z) as [-> | Hne]; [exact IH |].
  constructor; [exact IH |].
  apply List.Forall_forall. intros x Hx. apply (proj1 (In_dedup _ _)) in Hx.
  rewrite List.Forall_forall in Hy.
  split; [apply Hy, Hx |]. intros Heq. subst x.
  apply Hne. apply le_antisym; [apply Hy; left; reflexivity |].
  destruct Hx as [Hx | Hx]; [subst z; destruct (le_total y y); assumption |].
  inversion Hl as [| ? ? _ Hz]; subst. rewrite List.Forall_forall in Hz.
  apply Hz, Hx.
Qed.

Lemma keys_NoDup (l : list A) : List.NoDup (dedup eqb (sort_by le l)).
Proof.
  pose proof (dedup_sorted _ (sort_by_sorted l)) as H.
  induction H as [| x k Hk IH Hx]; constructor; [| exact IH].
  rewrite List.Forall_forall in Hx. intros Hin. destruct (Hx x Hin). congruence.
Qed.

Lemma keys_In (x : A) (l : list A) :
  In x (dedup eqb (sort_by le l)) <-> In x l.
Proof. rewrite In_dedup. apply In_sort_by. Qed.

End SortFacts.

(** *** Integer column sums *)

Lemma fold_left_Zadd (l : list Z) (a : Z) :
  fold_left Z.add l a = a + fold_left Z.add l 0.
Proof.
  revert a. induction l as [| x l IH]; intros a; simpl; [lia |].
  rewrite (IH (a + x)), (IH (0 + x)). lia.
Qed.

Lemma zsum_cons (x : Z) (l : list Z) : zsum (x :: l) = x + zsum l.
Proof. unfold zsum. simpl. apply fold_left_Zadd. Qed.

Lemma zsum_perm (l k : list Z) : Permutation l k -> zsum l = zsum k.
Proof.
  induction 1; rewrite ?zsum_cons; try reflexivity; try lia; congruence.
Qed.

Lemma zsum_map_add {A} (g h : A -> Z) (l : list A) :
  zsum (map (fun k => g k + h k) l) = zsum (map g l) + zsum (map h l).
Proof.
  induction l as [| x l IH]; simpl; [reflexivity |].
  rewrite !zsum_cons, IH. lia.
Qed.

(** Without overflow the int64 sum is the sum. *)
Lemma wrap64_exact (z : Z) : - 2 ^ 63 <= z < 2 ^ 63 -> wrap64 z = z.
Proof.
  intros H. unfold wrap64. rewrite Z.mod_small; lia.
Qed.

Lemma zsum_nonneg {A} (f : A -> Z) (l : list A) :
  (forall x, In x l -> 0 <= f x) -> 0 <= zsum (map f l).
Proof.
  induction l as [| x l IH]; intros H; [unfold zsum; simpl; lia |].
  simpl. rewrite zsum_cons.
  pose proof (H x (or_introl eq_refl)).
  pose proof (IH (fun y Hy => H y (or_intror Hy))). lia.
Qed.

(** The rows of one channel sum to no more than all rows. *)
Lemma zsum_rows_of_source (f : mrow -> Z) (df : dataframe) (k : string) :
  (forall r, In r df -> 0 <= f r) ->
  0 <= zsum (map f (rows_of_source df k)) <= zsum (map f df).
Proof.
  unfold rows_of_source.
  induction df as [| r df IH]; intros H; [unfold zsum; simpl; lia |].
  pose proof (H r (or_introl eq_refl)).
  pose proof (IH (fun y Hy => H y (or_intror Hy))).
  simpl. destruct (String.eqb (marketing_source r) k); simpl;
    rewrite ?zsum_cons; lia.
Qed.

(** A value counted under one key only is counted once when the keys hold
    that key once. *)
Lemma zsum_one_key (s : string) (v : Z) (keys : list string) :
  List.NoDup keys -> In s keys ->
  zsum (map (fun k => if String.eqb s k then v else 0) keys) = v.
Proof.
  induction 1 as [| k keys Hk Hnd IH]; intros Hin; [destruct Hin |].
  simpl. rewrite zsum_cons. destruct (String.eqb_spec s k) as [-> | Hne].
  - replace (zsum _) with 0; [lia |]. clear IH Hin Hnd.
    induction keys as [| k' keys IH]; [reflexivity |].
    simpl. rewrite zsum_cons.
    destruct (String.eqb_spec k k') as [-> | _]; [exfalso; apply Hk; left; reflexivity |].
    rewrite <- IH; [reflexivity |]. intros H. apply Hk. right. exact H.
  - destruct Hin as [-> | Hin]; [congruence |]. rewrite IH by exact Hin. lia.
Qed.

(** Summing a column group by group gives the sum of the column. *)
Lemma zsum_by_source (f : mrow -> Z) (df : dataframe) (keys : list string) :
  List.NoDup keys ->
  (forall r, In r df -> In (marketing_source r) keys) ->
  zsum (map (fun k => zsum (map f (rows_of_source df k))) keys)
  = zsum (map f df).
Proof.
  intros Hnd. induction df as [| r df IH]; intros Hin.
  - clear Hnd Hin. induction keys as [| k keys IHk]; [reflexivity |].
    simpl in *. rewrite zsum_cons, IHk. reflexivity.
  - pose proof (IH (fun r0 H => Hin r0 (or_intror H))) as IH'.
    pose proof (zsum_one_key (marketing_source r) (f r) keys Hnd
                  (Hin r (or_introl eq_refl))) as Hone.
    change (map f (r :: df)) with (f r :: map f df).
    rewrite zsum_cons, <- IH', <- Hone at 1.
    rewrite <- zsum_map_add. f_equal. apply map_ext. intros k.
    unfold rows_of_source. simpl.
    destruct (String.eqb (marketing_source r) k); simpl;
      rewrite ?zsum_cons; lia.
Qed.

Lemma source_keys_NoDup (df : dataframe) : List.NoDup (source_keys df).
Proof.
  apply (keys_NoDup String.leb String.leb_total string_leb_trans
           String.eqb String.eqb_spec String.leb_antisym).
Qed.

Lemma source_keys_In (df : dataframe) (s : string) :
  In s (source_keys df) <-> exists r, In r df /\ marketing_source r = s.
Proof.
  unfold source_keys.
  rewrite (keys_In String.leb String.eqb String.eqb_spec), in_map_iff.
  split; intros (r & H1 & H2); eauto.
Qed.

(** *** The funnel and the per-channel totals *)

(** X9: when no row has more conversions than sessions, none has a negative
    count, and the sessions sum to less than [2^63] (so that the int64 sums
    do not wrap), the second stage of the funnel is not wider than the
    first. *)
Theorem funnel_narrows (df : dataframe) :
  (forall r, In r df -> 0 <= conversions r <= sessions r) ->
  zsum (map sessions df) < 2 ^ 63 ->
  exists s c, plot_conversion_funnel df = Funnel s c /\ 0 <= c <= s.
Proof.
  intros H Hmax. eexists _, _. split; [reflexivity |].
  assert (Hc : 0 <= zsum (map conversions df))
    by (apply zsum_nonneg; intros r Hr; apply H, Hr).
  assert (Hle : zsum (map conversions df) <= zsum (map sessions df)).
  { clear Hmax Hc. induction df as [| r df IH]; [unfold zsum; simpl; lia |].
    simpl. rewrite !zsum_cons.
    pose proof (H r (or_introl eq_refl)).
    pose proof (IH (fun y Hy => H y (or_intror Hy))). lia. }
  unfold isum. rewrite !wrap64_exact by lia. lia.
Qed.

(** X10: when no count is negative and the sessions and the conversions
    each sum to less than [2^63] (so that no int64 sum wraps), the sessions
    and the conversions of the per-channel breakdown add up to the totals
    the KPI row shows for the same rows. *)
Theorem channel_totals_add_up (df : dataframe) :
  (forall r, In r df -> 0 <= sessions r /\ 0 <= conversions r) ->
  zsum (map sessions df) < 2 ^ 63 ->
  zsum (map conversions df) < 2 ^ 63 ->
  zsum (map ca_sessions (channel_source_agg df))
    = total_sessions (display_kpis df)
  /\ zsum (map ca_conversions (channel_source_agg df))
     = total_conversions (display_kpis df).
Proof.
  intros Hpos Hs Hc.
  assert (Hgroup : forall (f : mrow -> Z),
            (forall r, In r df -> 0 <= f r) -> zsum (map f df) < 2 ^ 63 ->
            zsum (map (fun k => isum (map f (rows_of_source df k)))
                      (source_keys df))
            = isum (map f df)).
  { intros f Hf Hmax. unfold isum at 2.
    rewrite wrap64_exact by (pose proof (zsum_nonneg f df Hf); lia).
    rewrite <- (zsum_by_source f df _ (source_keys_NoDup df))
      by (intros r Hr; apply source_keys_In; eauto).
    f_equal. apply map_ext. intros k. unfold isum.
    apply wrap64_exact. pose proof (zsum_rows_of_source f df k Hf). lia. }
  unfold channel_source_agg, display_kpis. cbv zeta. simpl.
  split.
  - rewrite (zsum_perm _ _ (Permutation_map _ (sort_by_perm _ _))).
    rewrite !map_map. simpl.
    apply (Hgroup sessions); [intros r Hr; apply Hpos, Hr | exact Hs].
  - rewrite (zsum_perm _ _ (Permutation_map _ (sort_by_perm _ _))).
    rewrite !map_map. simpl.
    apply (Hgroup conversions); [intros r Hr; apply Hpos, Hr | exact Hc].
Qed.

(** *** The bars of the per-channel charts *)

Lemma StronglySorted_map {A B} (f : A -> B) (R : B -> B -> Prop) (l : list A) :
  StronglySorted (fun a b => R (f a) (f b)) l -> StronglySorted R (map f l).
Proof.
  induction 1 as [| x l Hl IH Hx]; simpl; constructor; [exact IH |].
  rewrite List.Forall_forall in *. intros y Hy.
  apply in_map_iff in Hy as (a & <- & Ha). auto.
Qed.

(** X11: the ROAS chart has one bar for each channel of the rows and no other,
    drawn in ascending order of ROAS with the NaN bars last. *)
Theorem roas_chart_bars (df : dataframe) :
  exists srcs roas colors,
    plot_roas_by_source df = RoasBySource srcs roas colors 2
    /\ List.NoDup srcs
    /\ (forall s, In s srcs <-> exists r, In r df /\ marketing_source r = s)
    /\ length roas = length srcs /\ length colors = length srcs
    /\ StronglySorted (fun a b => float_le_nan_last a b = true) roas.
Proof.
  unfold plot_roas_by_source. cbv zeta. eexists _, _, _.
  split; [reflexivity |].
  assert (Hperm : Permutation (map ra_source (roas_source_agg df)) (source_keys df)).
  { unfold roas_source_agg. cbv zeta.
    rewrite (Permutation_map _ (sort_by_perm _ _)), !map_map.
    rewrite <- (map_id (source_keys df)) at 2.
    apply Permutation_refl'. apply map_ext. reflexivity. }
  split; [| split; [| split; [| split]]].
  - apply (Permutation_NoDup (Permutation_sym Hperm)), source_keys_NoDup.
  - intros s. rewrite <- source_keys_In.
    split; apply Permutation_in; [exact Hperm | apply Permutation_sym, Hperm].
  - rewrite !length_map. reflexivity.
  - rewrite !length_map. reflexivity.
  - apply StronglySorted_map. unfold roas_source_agg. cbv zeta.
    apply (sort_by_sorted (fun a b => float_le_nan_last (ra_roas a) (ra_roas b))).
    + intros x y. apply float_le_nan_last_total.
    + intros x y z. apply float_le_nan_last_trans.
Qed.

(** X12: the spend-and-revenue chart has one pair of bars for each channel of the
    rows and no other, in ascending order of revenue. *)
Theorem channel_chart_bars (df : dataframe) :
  exists srcs sp rev,
    plot_channel_performance df = ChannelPerformance srcs sp rev
    /\ List.NoDup srcs
    /\ (forall s, In s srcs <-> exists r, In r df /\ marketing_source r = s)
    /\ length sp = length srcs /\ length rev = length srcs
    /\ StronglySorted (fun a b => float_le_nan_last a b = true) rev.
Proof.
  unfold plot_channel_performance. cbv zeta. eexists _, _, _.
  split; [reflexivity |].
  assert (Hperm : Permutation (map ca_source (channel_source_agg df)) (source_keys df)).
  { unfold channel_source_agg. cbv zeta.
    rewrite (Permutation_map _ (sort_by_perm _ _)), !map_map.
    rewrite <- (map_id (source_keys df)) at 2.
    apply Permutation_refl'. apply map_ext. reflexivity. }
  split; [| split; [| split; [| split]]].
  - apply (Permutation_NoDup (Permutation_sym Hperm)), source_keys_NoDup.
  - intros s. rewrite <- source_keys_In.
    split; apply Permutation_in; [exact Hperm | apply Permutation_sym, Hperm].
  - rewrite !length_map. reflexivity.
  - rewrite !length_map. reflexivity.
  - apply StronglySorted_map. unfold channel_source_agg. cbv zeta.
    apply (sort_by_sorted
             (fun a b => float_le_nan_last (ca_revenue a) (ca_revenue b))).
    + intros x y. apply float_le_nan_last_total.
    + intros x y z. apply float_le_nan_last_trans.
Qed.

(** *** One channel selected *)

Lemma rows_of_source_idem (df : dataframe) (s : string) :
  rows_of_source (rows_of_source df s) s = rows_of_source df s.
Proof.
  unfold rows_of_source. induction df as [| r df IH]; simpl; [reflexivity |].
  destruct (String.eqb (marketing_source r) s) eqn:E; simpl; rewrite ?E, IH;
    reflexivity.
Qed.

Lemma dedup_constant (s : string) (l : list string) :
  (forall x, In x l -> x = s) -> l <> [] -> dedup String.eqb l = [s].
Proof.
  induction l as [| x l IH]; intros Hall Hne; [congruence |].
  destruct l as [| y l].
  - simpl. rewrite (Hall x) by (left; reflexivity). reflexivity.
  - change (dedup String.eqb (x :: y :: l))
      with (if String.eqb x y then dedup String.eqb (y :: l)
            else x :: dedup String.eqb (y :: l)).
    replace (String.eqb x y) with true
      by (rewrite (Hall x), (Hall y) by (simpl; auto);
          symmetry; apply String.eqb_refl).
    apply IH; [| discriminate]. intros z Hz. apply Hall. right. exact Hz.
Qed.

Lemma source_keys_one (df : dataframe) (s : string) :
  In s (source_keys df) -> source_keys (rows_of_source df s) = [s].
Proof.
  intros Hs. apply source_keys_In in Hs as (r & Hr & Hrs).
  unfold source_keys. apply dedup_constant.
  - intros x Hx. apply In_sort_by, in_map_iff in Hx as (r' & <- & Hr').
    unfold rows_of_source in Hr'. apply filter_In in Hr' as [_ Heq].
    apply String.eqb_eq. exact Heq.
  - assert (Hin : In s (sort_by String.leb
                          (map marketing_source (rows_of_source df s)))).
    { apply In_sort_by, in_map_iff. exists r. split; [exact Hrs |].
      unfold rows_of_source. apply filter_In. split; [exact Hr |].
      apply String.eqb_eq. exact Hrs. }
    intros Hnil. rewrite Hnil in Hin. destruct Hin.
Qed.

(** *** The page as a whole *)

(** What [main] shows after a query that returned rows. *)
Definition page (df : dataframe) (selected : nat) (now : string) : list ui :=
  let sources := "All"%string :: source_keys df in
  let selected_source := nth selected sources "All"%string in
  let view := if negb (String.eqb selected_source "All")
              then rows_of_source df selected_source else df in
  [SidebarMarkdown "---"; SidebarMarkdown "### Summary Stats";
   SidebarMetric "Total Records" (Z.of_nat (length df));
   SidebarMetric "Date Range" (Z.of_nat (length (date_keys df)));
   SidebarMetric "Sources" (Z.of_nat (length (source_keys df)));
   Markdown "---"; Subheader "Key Performance Indicators";
   Kpis (display_kpis view);
   Markdown "---";
   PlotlyChart (plot_daily_trend view);
   PlotlyChart (plot_roas_by_source view);
   PlotlyChart (plot_channel_performance view);
   PlotlyChart (plot_conversion_funnel view);
   Markdown "---"; Subheader "Raw Data";
   DataTable (sort_by (fun a b => date b <=? date a) view);
   Markdown "---";
   Markdown ("Last updated: " +:+ now)].

Definition heading : list ui :=
  [Title "Marketing Analytics Dashboard";
   Markdown "Real-time insights from your marketing campaigns";
   SidebarHeader "Filters"].

(** The four ways a run of [main] can go. *)
Lemma main_cases (conn : connection) (start_date end_date : day)
    (selected : nat) (now : string) :
  let shown := snd (get_bigquery_client conn) in
  match fst (get_bigquery_client conn) with
  | None =>
      main conn start_date end_date selected now =
      heading ++ shown ++
      [Error "Unable to connect to BigQuery. Please check your credentials."]
  | Some c =>
      match run_query c start_date end_date with
      | QueryFailed e =>
          main conn start_date end_date selected now =
          heading ++ shown ++
          [Error ("Error loading data: " +:+ e);
           Warning "No data available for the selected date range."]
      | QueryRows [] =>
          main conn start_date end_date selected now =
          heading ++ shown ++
          [Warning "No data available for the selected date range."]
      | QueryRows (r :: rows) =>
          main conn start_date end_date selected now =
          heading ++ shown ++ page (r :: rows) selected now
      end
  end.
Proof.
  unfold main, load_marketing_data.
  destruct (get_bigquery_client conn) as [[c |] shown]; cbn [fst snd];
    [| reflexivity].
  destruct (run_query c start_date end_date) as [e | [| r rows]]; reflexivity.
Qed.

Lemma shown_status (conn : connection) (c : bq_client) :
  fst (get_bigquery_client conn) = Some c ->
  exists x, snd (get_bigquery_client conn) = [x]
            /\ (forall f, x <> PlotlyChart f) /\ (forall rows, x <> DataTable rows)
            /\ (forall msg, x <> Error msg) /\ (forall msg, x <> Warning msg).
Proof.
  destruct conn; simpl; intros [= <-]; eexists; split; try reflexivity;
    repeat split; discriminate.
Qed.

(** The ROAS chart of the page is drawn from the rows the selector leaves. *)
Lemma page_roas_chart (df : dataframe) (selected : nat) (now : string) :
  let s := nth selected ("All"%string :: source_keys df) "All"%string in
  In (PlotlyChart (plot_roas_by_source
                     (if negb (String.eqb s "All")
                      then rows_of_source df s else df)))
     (page df selected now).
Proof. cbv zeta. unfold page. cbv zeta. do 10 right. left. reflexivity. Qed.

(** X13: on a page with data, picking an entry other than ["All"] in the
    source selector makes [main] draw the ROAS chart from the rows of that
    channel alone, and the chart then has the single bar of that channel;
    when the entry picked reads ["All"] (the first entry, or a channel that
    is itself named so) the chart is drawn from all the rows. *)
Theorem selected_source_view (conn : connection) (c : bq_client)
    (start_date end_date : day) (selected : nat) (now : string)
    (r : mrow) (rows : dataframe) :
  fst (get_bigquery_client conn) = Some c ->
  run_query c start_date end_date = QueryRows (r :: rows) ->
  let df := r :: rows in
  let s := nth selected ("All"%string :: source_keys df) "All"%string in
  (s <> "All"%string ->
     In (PlotlyChart (plot_roas_by_source (rows_of_source df s)))
        (main conn start_date end_date selected now)
     /\ (forall r', In r' (rows_of_source df s) -> marketing_source r' = s)
     /\ exists v colour,
          plot_roas_by_source (rows_of_source df s) =
          RoasBySource [s] [v] [colour] 2)
  /\ (s = "All"%string ->
        In (PlotlyChart (plot_roas_by_source df))
           (main conn start_date end_date selected now)).
Proof.
  intros Hc Hq. cbv zeta.
  pose proof (main_cases conn start_date end_date selected now) as Hmain.
  cbv zeta in Hmain. rewrite Hc, Hq in Hmain.
  pose proof (page_roas_chart (r :: rows) selected now) as Hpage.
  cbv zeta in Hpage.
  set (s := nth selected ("All"%string :: source_keys (r :: rows)) "All"%string)
    in *.
  split.
  - intros Hs.
    assert (Hkey : In s (source_keys (r :: rows))).
    { subst s. destruct selected as [| n]; [simpl in Hs; congruence |].
      simpl in *. destruct (nth_in_or_default n (source_keys (r :: rows))
                              "All"%string) as [Hin | Heq];
        [exact Hin | congruence]. }
    split; [| split].
    + rewrite Hmain. apply in_or_app. right. apply in_or_app. right.
      destruct (String.eqb_spec s "All") as [Heq | _]; [congruence |].
      exact Hpage.
    + intros r' Hr'. unfold rows_of_source in Hr'.
      apply filter_In in Hr' as [_ Heq]. apply String.eqb_eq. exact Heq.
    + unfold plot_roas_by_source, roas_source_agg. cbv zeta.
      rewrite (source_keys_one _ s Hkey). simpl. eauto.
  - intros Hs. rewrite Hmain. apply in_or_app. right. apply in_or_app. right.
    rewrite Hs in Hpage. exact Hpage.
Qed.

(** X14: the page shows charts exactly when the client is connected and the
    query returns at least one row; it then shows no error and no warning. *)
Theorem charts_iff_rows (conn : connection) (start_date end_date : day)
    (selected : nat) (now : string) :
  ((exists f, In (PlotlyChart f) (main conn start_date end_date selected now))
   <-> exists c r rows,
         fst (get_bigquery_client conn) = Some c
         /\ run_query c start_date end_date = QueryRows (r :: rows))
  /\ ((exists f, In (PlotlyChart f) (main conn start_date end_date selected now))
      -> forall msg,
           ~ In (Error msg) (main conn start_date end_date selected now)
           /\ ~ In (Warning msg) (main conn start_date end_date selected now)).
Proof.
  pose proof (main_cases conn start_date end_date selected now) as Hmain.
  cbv zeta in Hmain.
  destruct (fst (get_bigquery_client conn)) as [c |] eqn:Hc.
  - destruct (shown_status conn c Hc) as (x & Hx & Hn1 & Hn2 & Hn3 & Hn4).
    rewrite Hx in Hmain.
    destruct (run_query c start_date end_date) as [e | [| r rows]] eqn:Hq;
      rewrite Hmain; simpl.
    + split.
      * split; [| intros (c' & r & rows & [= <-] & H); congruence].
        intros [f Hf]. exfalso.
        repeat (destruct Hf as [Hf | Hf]; [try discriminate; eapply Hn1; eauto |]).
        exact Hf.
      * intros [f Hf]. exfalso.
        repeat (destruct Hf as [Hf | Hf]; [try discriminate; eapply Hn1; eauto |]).
        exact Hf.
    + split.
      * split; [| intros (c' & r & rows & [= <-] & H); congruence].
        intros [f Hf]. exfalso.
        repeat (destruct Hf as [Hf | Hf]; [try discriminate; eapply Hn1; eauto |]).
        exact Hf.
      * intros [f Hf]. exfalso.
        repeat (destruct Hf as [Hf | Hf]; [try discriminate; eapply Hn1; eauto |]).
        exact Hf.
    + split.
      * split; [intros _; eauto |]. intros _. eexists. auto 20.
      * intros _ msg. split; intros Hf;
          repeat (destruct Hf as [Hf | Hf];
                  [first [discriminate
                         | exfalso; eapply Hn3; exact Hf
                         | exfalso; eapply Hn4; exact Hf] |]);
          exact Hf.
  - assert (Hsh : exists e, snd (get_bigquery_client conn) = [Error e]).
    { destruct conn; simpl in *; try discriminate. eauto. }
    destruct Hsh as [e Hsh]. rewrite Hmain, Hsh. simpl. split.
    + split; [| intros (c' & r & rows & H & _); discriminate].
      intros [f Hf]. exfalso.
      repeat (destruct Hf as [Hf | Hf]; [discriminate |]). exact Hf.
    + intros [f Hf]. exfalso.
      repeat (destruct Hf as [Hf | Hf]; [discriminate |]). exact Hf.
Qed.

Lemma StronglySorted_weaken {A} (R S : A -> A -> Prop) (l : list A) :
  (forall a b, R a b -> S a b) -> StronglySorted R l -> StronglySorted S l.
Proof.
  intros HRS. induction 1 as [| x l Hl IH Hx]; constructor; [exact IH |].
  rewrite List.Forall_forall in *. auto.
Qed.

Lemma page_table (df rows : dataframe) (selected : nat) (now : string) :
  In (DataTable rows) (page df selected now) ->
  exists view,
    rows = sort_by (fun a b => date b <=? date a) view
    /\ forall r, In r view -> In r df.
Proof.
  unfold page. cbv zeta.
  set (view := if negb _ then _ else df).
  assert (Hview : forall r, In r view -> In r df).
  { subst view. destruct (negb _); [| auto].
    intros r Hr. unfold rows_of_source in Hr. apply filter_In in Hr. tauto. }
  clearbody view. intros Hin. simpl in Hin.
  repeat (destruct Hin as [Hin | Hin]; [try discriminate |]);
    [| destruct Hin].
  injection Hin as <-. eauto.
Qed.

(** X15: the raw-data table lists rows the query returned and no other, latest
    date first. *)
Theorem raw_table_rows (conn : connection) (start_date end_date : day)
    (selected : nat) (now : string) (rows : dataframe) :
  In (DataTable rows) (main conn start_date end_date selected now) ->
  StronglySorted (fun a b => date b <= date a) rows
  /\ exists c result,
       fst (get_bigquery_client conn) = Some c
       /\ run_query c start_date end_date = QueryRows result
       /\ forall r, In r rows -> In r result.
Proof.
  pose proof (main_cases conn start_date end_date selected now) as Hmain.
  cbv zeta in Hmain. intros Hin.
  destruct (fst (get_bigquery_client conn)) as [c |] eqn:Hc.
  - destruct (shown_status conn c Hc) as (x & Hx & Hn1 & Hn2 & Hn3 & Hn4).
    rewrite Hx in Hmain.
    destruct (run_query c start_date end_date) as [e | [| r0 rest]] eqn:Hq;
      rewrite Hmain in Hin.
    + exfalso. simpl in Hin.
      repeat (destruct Hin as [Hin | Hin];
              [first [discriminate | eapply Hn2; exact Hin] |]).
      exact Hin.
    + exfalso. simpl in Hin.
      repeat (destruct Hin as [Hin | Hin];
              [first [discriminate | eapply Hn2; exact Hin] |]).
      exact Hin.
    + apply in_app_or in Hin as [Hin | Hin];
        [exfalso; simpl in Hin;
         repeat (destruct Hin as [Hin | Hin]; [discriminate |]); exact Hin |].
      apply in_app_or in Hin as [Hin | Hin];
        [exfalso; destruct Hin as [Hin | []]; eapply Hn2; exact Hin |].
      apply page_table in Hin as (view & -> & Hview). split.
      * eapply StronglySorted_weaken;
          [| apply (sort_by_sorted (fun a b : mrow => date b <=? date a))].
        -- intros a b H. apply Z.leb_le. exact H.
        -- intros a b. destruct (Z.leb_spec (date b) (date a)); [auto |].
           right. apply Z.leb_le. lia.
        -- intros a b c' H1 H2. apply Z.leb_le in H1, H2. apply Z.leb_le. lia.
      * exists c, (r0 :: rest). split; [reflexivity |]. split; [exact Hq |].
        intros r Hr. apply Hview. apply In_sort_by in Hr. exact Hr.
  - exfalso.
    assert (Hsh : exists e, snd (get_bigquery_client conn) = [Error e]).
    { destruct conn; simpl in *; try discriminate. eauto. }
    destruct Hsh as [e Hsh]. rewrite Hmain, Hsh in Hin. simpl in Hin.
    repeat (destruct Hin as [Hin | Hin]; [discriminate |]). exact Hin.
Qed.

(** X16: the daily trend has one point for each date of the rows and no other,
    in increasing date order. *)
Theorem daily_trend_points (df : dataframe) :
  exists dates sp rev,
    plot_daily_trend df = DailyTrend dates sp rev
    /\ StronglySorted Z.lt dates
    /\ (forall d, In d dates <-> exists r, In r df /\ date r = d)
    /\ length sp = length dates /\ length rev = length dates.
Proof.
  unfold plot_daily_trend. cbv zeta. eexists _, _, _.
  split; [reflexivity |]. rewrite !map_map. simpl.
  rewrite map_id.
  split; [| split; [| rewrite !length_map; split; reflexivity]].
  - unfold date_keys.
    assert (Htotal : forall x y, (x <=? y) = true \/ (y <=? x) = true)
      by (intros x y; rewrite !Z.leb_le; lia).
    assert (Htrans : forall x y z,
              (x <=? y) = true -> (y <=? z) = true -> (x <=? z) = true)
      by (intros x y z; rewrite !Z.leb_le; lia).
    assert (Hanti : forall x y, (x <=? y) = true -> (y <=? x) = true -> x = y)
      by (intros x y; rewrite !Z.leb_le; lia).
    pose proof (dedup_sorted Z.leb Htotal Z.eqb Z.eqb_spec Hanti _
                  (sort_by_sorted Z.leb Htotal Htrans (map date df))) as Hs.
    revert Hs. apply StronglySorted_weaken.
    intros a b [H1 H2]. apply Z.leb_le in H1. lia.
  - intros d. unfold date_keys.
    rewrite (keys_In Z.leb Z.eqb Z.eqb_spec), in_map_iff.
    split; intros (r & H1 & H2); eauto.
Qed.

(** *** The colour bands and the guarded ratios *)

Lemma float_leb_not_ltb (a b : float) :
  (a <=? b)%float = true -> (b <? a)%float = false.
Proof. rewrite leb_spec, ltb_spec. apply SFleb_not_ltb. Qed.

(** X17: the colour of a bar: red below 1, yellow from 1 (included) to 2, green
    from 2 (included) on, and also green for a NaN. *)
Theorem roas_color_bands (x : float) :
  ((x <? 1)%float = true -> roas_color x = "#FF6B6B"%string)
  /\ ((1 <=? x)%float = true -> (x <? 2)%float = true ->
      roas_color x = "#FFD93D"%string)
  /\ ((2 <=? x)%float = true -> roas_color x = "#6BCF7F"%string)
  /\ (is_nan x = true -> roas_color x = "#6BCF7F"%string).
Proof.
  unfold roas_color. repeat split.
  - intros ->. reflexivity.
  - intros H1 ->. rewrite (float_leb_not_ltb _ _ H1). reflexivity.
  - intros H2. rewrite (float_leb_not_ltb _ _ H2).
    destruct (x <? 1)%float eqn:H1; [| reflexivity].
    exfalso. apply ltb_leb in H1. rewrite leb_spec in H1, H2.
    pose proof (SFleb_trans _ _ _ H2 H1) as H. vm_compute in H. discriminate.
  - intros Hn. rewrite is_nan_spec in Hn. rewrite !ltb_spec.
    destruct (Prim2SF x); try discriminate. reflexivity.
Qed.

Lemma fsum_zeros (l : list float) :
  (forall x, In x l -> is_zero x = true) ->
  Prim2SF (fsum l) = S754_zero false.
Proof.
  unfold fsum. generalize 0%float (eq_refl : Prim2SF 0 = S754_zero false).
  induction l as [| x l IH]; intros acc Hacc Hall; simpl; [exact Hacc |].
  assert (Hrest : forall y, In y l -> is_zero y = true)
    by (intros y Hy; apply Hall; right; exact Hy).
  destruct (negb (is_nan x)); simpl; [| apply IH; assumption].
  apply IH; [| exact Hrest].
  destruct (is_zero_spec x (Hall x (or_introl eq_refl))) as [b Hb].
  rewrite add_spec, Hacc, Hb. destruct b; reflexivity.
Qed.

(** X18: for rows without spend (the Direct channel alone, say) the KPI row
    reports a ROAS and a ROI of 0. *)
Theorem kpis_without_spend (df : dataframe) :
  (forall r, In r df -> is_zero (spend r) = true) ->
  avg_roas (display_kpis df) = PyInt 0 /\ avg_roi (display_kpis df) = PyInt 0.
Proof.
  intros H. unfold display_kpis. cbv zeta. simpl.
  assert (Hz : (0 <? fsum (map spend df))%float = false).
  { rewrite ltb_spec, fsum_zeros; [reflexivity |].
    intros x Hx. apply in_map_iff in Hx as (r & <- & Hr). auto. }
  rewrite Hz. split; reflexivity.
Qed.

Lemma funnel_narrows_witness :
  exists s c, plot_conversion_funnel two_channels = Funnel s c /\ 0 <= c <= s.
Proof.
  apply (funnel_narrows two_channels).
  - intros r [<- | [<- | []]]; simpl; lia.
  - vm_compute. reflexivity.
Defined.

Lemma channel_totals_add_up_witness :
  zsum (map ca_sessions (channel_source_agg two_channels))
    = total_sessions (display_kpis two_channels)
  /\ zsum (map ca_conversions (channel_source_agg two_channels))
     = total_conversions (display_kpis two_channels).
Proof.
  apply (channel_totals_add_up two_channels).
  - intros r [<- | [<- | []]]; simpl; lia.
  - vm_compute. reflexivity.
  - vm_compute. reflexivity.
Defined.

(** An int64 sum that overflows goes negative: the funnel of two rows of
    [2^62] sessions each has a negative first stage. *)
Example funnel_wraps :
  plot_conversion_funnel
    [ {| date := sep_01; marketing_source := "Direct"; spend := 0;
         sessions := 2 ^ 62; conversions := 1; revenue := 0 |};
      {| date := sep_01; marketing_source := "Email"; spend := 0;
         sessions := 2 ^ 62; conversions := 1; revenue := 0 |} ]
  = Funnel (- 2 ^ 63) 2.
Proof. vm_compute. reflexivity. Qed.

Definition google_row : mrow :=
  {| date := sep_01; marketing_source := "Google Ads"; spend := 3000;
     sessions := 1050; conversions := 50; revenue := 7500 |}.

Definition direct_row : mrow :=
  {| date := sep_01; marketing_source := "Direct"; spend := 0;
     sessions := 1400; conversions := 60; revenue := 4800 |}.

Lemma selected_source_view_witness :
  let df := [google_row; direct_row] in
  let s := nth 1 ("All"%string :: source_keys df) "All"%string in
  (s <> "All"%string ->
     In (PlotlyChart (plot_roas_by_source (rows_of_source df s)))
        (main (Local (warehouse_client two_channels)) sep_01 sep_01 1 "now")
     /\ (forall r', In r' (rows_of_source df s) -> marketing_source r' = s)
     /\ exists v colour,
          plot_roas_by_source (rows_of_source df s) =
          RoasBySource [s] [v] [colour] 2)
  /\ (s = "All"%string ->
        In (PlotlyChart (plot_roas_by_source df))
           (main (Local (warehouse_client two_channels)) sep_01 sep_01 1 "now")).
Proof.
  exact (selected_source_view (Local (warehouse_client two_channels))
           (warehouse_client two_channels) sep_01 sep_01 1 "now"
           google_row [direct_row] eq_refl eq_refl).
Defined.

(** The entry picked there is the Direct channel. *)
Example selected_direct :
  nth 1 ("All"%string :: source_keys two_channels) "All"%string = "Direct"%string.
Proof. reflexivity. Qed.

(** A channel that is itself named ["All"] cannot be singled out: picking it
    leaves the rows of the other channels in the chart. *)
Example channel_named_all :
  let df := [ {| date := sep_01; marketing_source := "All"; spend := 10;
                 sessions := 1; conversions := 1; revenue := 20 |};
              direct_row ] in
  nth 1 ("All"%string :: source_keys df) "All"%string = "All"%string
  /\ In (PlotlyChart (RoasBySource ["All"; "Direct"]%string [2; infinity]%float
                        ["#6BCF7F"; "#6BCF7F"]%string 2))
        (main (Local (warehouse_client df)) sep_01 sep_01 1 "now").
Proof. split; [reflexivity |]. vm_compute. do 14 right. left. reflexivity. Qed.

Definition september_table : dataframe :=
  sort_by (fun a b => date b <=? date a) two_channels.

Lemma raw_table_rows_witness :
  StronglySorted (fun a b => date b <= date a) september_table
  /\ exists c result,
       fst (get_bigquery_client (Local (warehouse_client two_channels))) = Some c
       /\ run_query c sep_01 sep_01 = QueryRows result
       /\ forall r, In r september_table -> In r result.
Proof.
  apply (raw_table_rows (Local (warehouse_client two_channels))
           sep_01 sep_01 0 "now" september_table).
  vm_compute. do 19 right. left. reflexivity.
Defined.

Lemma kpis_without_spend_witness :
  avg_roas (display_kpis (rows_of_source two_channels "Direct")) = PyInt 0
  /\ avg_roi (display_kpis (rows_of_source two_channels "Direct")) = PyInt 0.
Proof.
  apply (kpis_without_spend (rows_of_source two_channels "Direct")).
  intros r [<- | []]. reflexivity.
Defined.

End Dashboard.
